(** * EDI 850 to ERP integration pipeline: model and properties

    A shallow embedding of the Python pipeline

      - [backend/edi_parser/parser.py]      (module [Parser])
      - [backend/transformer/mapper.py]     (module [Mapper])
      - [backend/mock_erp_api/endpoints.py] (module [ErpApi])
      - [backend/processor/orchestrator.py] (module [Orchestrator])

    followed by the vocabulary of the properties and by their proofs.

    Modelling conventions.
    - A Python [str] is a [string]; a character is a code point below 256.
    - A Python [float] is a binary64 value, [PrimFloat.float]; [*], [<=] and
      [<] on floats are the IEEE operations of [PrimFloat].
    - A Python [int] is a [Z].
    - A dictionary is an association list in insertion order; a pydantic
      model, and the dictionary that [model_dump] makes of it, is a record.
    - A function that may raise returns a [Result]; the exception classes of
      the repository are one-constructor types carrying the message.
    - The interpreter's numeric built-ins ([float(s)], [int(s)],
      [round(x, 2)], [sum]) and the rendering [str(e)] of library exceptions
      are not code of the repository: the model takes them as the fields of
      the class [PyBuiltins].
    - The retry loop records what it does to the outside, calls of the
      endpoint and sleeps, as a list of events. *)

From Stdlib Require Import Bool Arith ZArith QArith List Ascii String Floats Lia.
From Stdlib Require Import Numbers.DecimalString.
Import ListNotations.

Close Scope Q_scope.
Open Scope string_scope.
Open Scope list_scope.
Open Scope nat_scope.

(** ** Results of fallible code *)

Inductive Result (E A : Type) : Type :=
| Ok (value : A)
| Err (error : E).

Arguments Ok {E A} value.
Arguments Err {E A} error.

Definition bind {E A B} (r : Result E A) (k : A -> Result E B) : Result E B :=
  match r with
  | Ok a => k a
  | Err e => Err e
  end.

Definition map_err {E F A} (f : E -> F) (r : Result E A) : Result F A :=
  match r with
  | Ok a => Ok a
  | Err e => Err (f e)
  end.

Declare Scope result_scope.
Delimit Scope result_scope with result.
Notation "x <- r ;; k" := (bind r (fun x => k))
  (at level 61, r at next level, right associativity) : result_scope.
Open Scope result_scope.

(** ** The string methods the pipeline uses *)

Module Py.

(** [str.isspace] on one character, for the code points below 256:
    U+0009..U+000D, U+001C..U+001F, U+0020, U+0085 and U+00A0. *)
Definition isspace (c : ascii) : bool :=
  let n := nat_of_ascii c in
  ((9 <=? n) && (n <=? 13)) || ((28 <=? n) && (n <=? 31))
  || (n =? 32) || (n =? 133) || (n =? 160).

Fixpoint lstrip (s : string) : string :=
  match s with
  | EmptyString => EmptyString
  | String c rest => if isspace c then lstrip rest else s
  end.

Fixpoint rstrip (s : string) : string :=
  match s with
  | EmptyString => EmptyString
  | String c rest =>
      match rstrip rest with
      | EmptyString => if isspace c then EmptyString else String c EmptyString
      | kept => String c kept
      end
  end.

(** [s.strip()] *)
Definition strip (s : string) : string := rstrip (lstrip s).

(** [s.split(sep)] for a one-character separator: never the empty list. *)
Fixpoint split (sep : ascii) (s : string) : list string :=
  match s with
  | EmptyString => [EmptyString]
  | String c rest =>
      if Ascii.eqb c sep then EmptyString :: split sep rest
      else match split sep rest with
           | piece :: pieces => String c piece :: pieces
           | [] => [String c EmptyString]
           end
  end.

(** [str.lower] on one character, for the code points below 256. *)
Definition lower_char (c : ascii) : ascii :=
  let n := nat_of_ascii c in
  if ((65 <=? n) && (n <=? 90))
     || ((192 <=? n) && (n <=? 222) && negb (n =? 215))
  then ascii_of_nat (n + 32) else c.

Fixpoint lower (s : string) : string :=
  match s with
  | EmptyString => EmptyString
  | String c rest => String (lower_char c) (lower rest)
  end.

(** [str(n)] for an [int]. *)
Definition str_int (n : Z) : string := NilZero.string_of_int (Z.to_int n).

(** [len] as a Python [int]. *)
Definition len {A} (l : list A) : Z := Z.of_nat (List.length l).

(** [d[key] = value] on a dictionary kept in insertion order: an existing
    key keeps its place and takes the new value. *)
Fixpoint dict_set (d : list (string * string)) (key value : string)
  : list (string * string) :=
  match d with
  | [] => [(key, value)]
  | (k, v) :: rest =>
      if String.eqb k key then (k, value) :: rest
      else (k, v) :: dict_set rest key value
  end.

(** [d.get(key, default)] on a table of the source. *)
Fixpoint dict_get (d : list (string * string)) (key default : string) : string :=
  match d with
  | [] => default
  | (k, v) :: rest => if String.eqb k key then v else dict_get rest key default
  end.

End Py.

(** ** [backend/edi_parser]: the parsed document and its parser *)

Module Parser.

Record ISAHeader := {
  authorization_info : string;
  security_info : string;
  sender_id : string;
  receiver_id : string;
  isa_date : string;
  isa_time : string;
  isa_control_number : string;
  acknowledgment_requested : string;
  usage_indicator : string
}.

Record GSHeader := {
  functional_id_code : string;
  sender_code : string;
  receiver_code : string;
  gs_date : string;
  gs_time : string;
  gs_control_number : string;
  responsible_agency : string;
  version : string
}.

Record BEGSegment := {
  transaction_set_purpose : string;
  purchase_order_type : string;
  purchase_order_number : string;
  beg_date : string
}.

Record REFSegment := {
  reference_qualifier : string;
  reference_number : string
}.

Record N1Loop := {
  entity_identifier : string;
  name : string;
  identification_code_qualifier : option string;
  identification_code : option string
}.

Record PO1LineItem := {
  line_number : string;
  quantity : string;
  unit_of_measure : string;
  unit_price : string;
  product_id_qualifier : string;
  product_id : string;
  description : option string
}.

Record CTTSegment := {
  line_item_count : string;
  hash_total : option string
}.

Record ParsedEDI850 := {
  isa_header : ISAHeader;
  gs_header : GSHeader;
  beg_segment : BEGSegment;
  ref_segments : list REFSegment;
  n1_loops : list N1Loop;
  po1_line_items : list PO1LineItem;
  ctt_segment : CTTSegment;
  control_numbers : list (string * string)
}.

(** [class EDIParsingError(Exception)], carrying its message. *)
Record EDIParsingError := { parsing_message : string }.

Definition segment_delimiter : ascii := "~"%char.
Definition element_delimiter : ascii := "*"%char.
Definition subelement_delimiter : ascii := ":"%char.

(** A segment is the list of its elements. *)
Definition segment := list string.

(** The loop of [_split_segments]: blank pieces are skipped, the others
    are appended as element lists. *)
Fixpoint split_loop (segment_strings : list string) (segments : list segment)
  : list segment :=
  match segment_strings with
  | [] => segments
  | seg_str :: rest =>
      let seg_str := Py.strip seg_str in
      match seg_str with
      | EmptyString => split_loop rest segments
      | _ => split_loop rest (segments ++ [Py.split element_delimiter seg_str])
      end
  end.

Definition _split_segments (edi_content : string) : list segment :=
  let edi_content := Py.strip edi_content in
  let segment_strings := Py.split segment_delimiter edi_content in
  split_loop segment_strings [].

(** [segment and segment[0] == segment_id] *)
Definition has_id (segment_id : string) (seg : segment) : bool :=
  match seg with
  | [] => false
  | first :: _ => String.eqb first segment_id
  end.

Definition _find_segment (segments : list segment) (segment_id : string)
  : option segment :=
  find (has_id segment_id) segments.

Definition _find_all_segments (segments : list segment) (segment_id : string)
  : list segment :=
  filter (has_id segment_id) segments.

(** [seg[i].strip()]; every use is guarded by a length test, so the
    default of [nth] is never returned. *)
Definition elem (seg : segment) (i : nat) : string :=
  Py.strip (nth i seg EmptyString).

(** [not seg or len(seg) < n] for the result of [_find_segment]. *)
Definition absent_or_short (found : option segment) (n : nat) : bool :=
  match found with
  | None => true
  | Some [] => true
  | Some seg => List.length seg <? n
  end.

Definition the_segment (found : option segment) : segment :=
  match found with
  | Some seg => seg
  | None => []
  end.

Definition _parse_isa (segments : list segment) : Result string ISAHeader :=
  let isa := _find_segment segments "ISA" in
  if absent_or_short isa 17 then Err "ISA segment not found or incomplete"
  else
    let isa := the_segment isa in
    Ok {| authorization_info := elem isa 2;
          security_info := elem isa 4;
          sender_id := elem isa 6;
          receiver_id := elem isa 8;
          isa_date := elem isa 9;
          isa_time := elem isa 10;
          isa_control_number := elem isa 13;
          acknowledgment_requested := elem isa 14;
          usage_indicator := elem isa 15 |}.

Definition _parse_gs (segments : list segment) : Result string GSHeader :=
  let gs := _find_segment segments "GS" in
  if absent_or_short gs 9 then Err "GS segment not found or incomplete"
  else
    let gs := the_segment gs in
    Ok {| functional_id_code := elem gs 1;
          sender_code := elem gs 2;
          receiver_code := elem gs 3;
          gs_date := elem gs 4;
          gs_time := elem gs 5;
          gs_control_number := elem gs 6;
          responsible_agency := elem gs 7;
          version := elem gs 8 |}.

Definition _parse_beg (segments : list segment) : Result string BEGSegment :=
  let beg := _find_segment segments "BEG" in
  if absent_or_short beg 6 then Err "BEG segment not found or incomplete"
  else
    let beg := the_segment beg in
    Ok {| transaction_set_purpose := elem beg 1;
          purchase_order_type := elem beg 2;
          purchase_order_number := elem beg 3;
          beg_date := if 5 <? List.length beg then elem beg 5 else EmptyString |}.

Definition ref_of (ref : segment) : REFSegment :=
  {| reference_qualifier := elem ref 1;
     reference_number := elem ref 2 |}.

Definition n1_of (n1 : segment) : N1Loop :=
  {| entity_identifier := elem n1 1;
     name := elem n1 2;
     identification_code_qualifier :=
       if 3 <? List.length n1 then Some (elem n1 3) else None;
     identification_code :=
       if 4 <? List.length n1 then Some (elem n1 4) else None |}.

Definition po1_of (po1 : segment) : PO1LineItem :=
  {| line_number := elem po1 1;
     quantity := elem po1 2;
     unit_of_measure := elem po1 3;
     unit_price := elem po1 4;
     product_id_qualifier :=
       if 6 <? List.length po1 then elem po1 6 else EmptyString;
     product_id :=
       if 7 <? List.length po1 then elem po1 7 else EmptyString;
     description :=
       if 9 <? List.length po1 then Some (elem po1 9) else None |}.

(** The loop shared by [_parse_ref], [_parse_n1] and [_parse_po1]:
    [for seg in found: if len(seg) >= arity: result.append(build(seg))]. *)
Fixpoint collect {A} (arity : nat) (build : segment -> A)
         (found : list segment) (result : list A) : list A :=
  match found with
  | [] => result
  | seg :: rest =>
      if arity <=? List.length seg
      then collect arity build rest (result ++ [build seg])
      else collect arity build rest result
  end.

Definition _parse_ref (segments : list segment) : list REFSegment :=
  collect 3 ref_of (_find_all_segments segments "REF") [].

Definition _parse_n1 (segments : list segment) : list N1Loop :=
  collect 3 n1_of (_find_all_segments segments "N1") [].

Definition _parse_po1 (segments : list segment) : list PO1LineItem :=
  collect 7 po1_of (_find_all_segments segments "PO1") [].

Definition _parse_ctt (segments : list segment) : Result string CTTSegment :=
  let ctt := _find_segment segments "CTT" in
  if absent_or_short ctt 2 then Err "CTT segment not found or incomplete"
  else
    let ctt := the_segment ctt in
    Ok {| line_item_count := elem ctt 1;
          hash_total := if 2 <? List.length ctt then Some (elem ctt 2) else None |}.

(** One trailer of [_parse_control_trailers]: two keys when the segment is
    present with at least three elements. *)
Definition trailer (segments : list segment) (segment_id key1 key2 : string)
           (control : list (string * string)) : list (string * string) :=
  match _find_segment segments segment_id with
  | Some ((_ :: _) as seg) =>
      if 3 <=? List.length seg
      then Py.dict_set (Py.dict_set control key1 (elem seg 1)) key2 (elem seg 2)
      else control
  | _ => control
  end.

Definition _parse_control_trailers (segments : list segment)
  : list (string * string) :=
  let control := [] in
  let control := trailer segments "SE" "se_segment_count" "se_control_number" control in
  let control := trailer segments "GE" "ge_transaction_count" "ge_control_number" control in
  trailer segments "IEA" "iea_group_count" "iea_control_number" control.

(** The body of the [try] block of [parse], after the split. *)
Definition parse_segments (segments : list segment) : Result string ParsedEDI850 :=
  isa_header <- _parse_isa segments ;;
  gs_header <- _parse_gs segments ;;
  beg_segment <- _parse_beg segments ;;
  let ref_segments := _parse_ref segments in
  let n1_loops := _parse_n1 segments in
  let po1_line_items := _parse_po1 segments in
  ctt_segment <- _parse_ctt segments ;;
  let control_numbers := _parse_control_trailers segments in
  Ok {| isa_header := isa_header;
        gs_header := gs_header;
        beg_segment := beg_segment;
        ref_segments := ref_segments;
        n1_loops := n1_loops;
        po1_line_items := po1_line_items;
        ctt_segment := ctt_segment;
        control_numbers := control_numbers |}.

(** [except Exception as e: raise EDIParsingError(f"Failed to parse EDI 850: {str(e)}")] *)
Definition parse_failed (cause : string) : EDIParsingError :=
  {| parsing_message := ("Failed to parse EDI 850: " ++ cause)%string |}.

Definition parse (edi_content : string) : Result EDIParsingError ParsedEDI850 :=
  map_err parse_failed (parse_segments (_split_segments edi_content)).

End Parser.

(** ** The interpreter's built-ins *)

(** The exceptions raised by library code inside [ERPMapper.transform]. *)
Inductive PyException : Type :=
| ValueError_float (argument : string)        (* [float(s)] rejected [s] *)
| ValueError_int (argument : string)          (* [int(s)] rejected [s] *)
| ValidationError (model field : string).     (* pydantic rejected a field *)

Class PyBuiltins : Type := {
  (** [float(s)] on a [str]: the value, or [None] for [ValueError]. *)
  py_float : string -> option float;
  (** [int(s)] on a [str]: the value, or [None] for [ValueError]. *)
  py_int : string -> option Z;
  (** [round(x, 2)] on a [float]. *)
  py_round2 : float -> float;
  (** [sum(xs)] on floats, read as a [float] ([sum] of nothing is [0]). *)
  py_sum : list float -> float;
  (** [str(e)] for an exception of a library. *)
  py_str : PyException -> string
}.

(** ** [backend/transformer]: the ERP schema and the mapper *)

Module Mapper.

Record ERPLineItem := {
  line_number : Z;
  sku : string;
  description : option string;
  quantity : float;
  unit_price : float;
  unit_of_measure : string;
  total_price : float
}.

Record ERPVendor := {
  vendor_id : string;
  vendor_name : string
}.

Record ERPShipTo := {
  location_id : option string;
  location_name : string
}.

Record ERPPurchaseOrder := {
  po_number : string;
  po_date : string;
  po_type : string;
  vendor : ERPVendor;
  ship_to : ERPShipTo;
  line_items : list ERPLineItem;
  total_amount : float;
  total_lines : Z;
  reference_numbers : option (list (string * string))
}.

(** [class TransformationError(Exception)], carrying its message. *)
Record TransformationError := { transformation_message : string }.

Definition PO_TYPE_MAP : list (string * string) :=
  [("NE", "New Order"); ("RE", "Reorder"); ("SA", "Stand Alone");
   ("CN", "Confirmation"); ("RL", "Release")].

(** [d.get(key, default)] where [d] comes from [model_dump]: every field of
    the model is a key of [d], so the stored value is returned and the
    default is not consulted, also when the stored value is [None].  (The
    source's default [0] for the numeric fields is written ["0"] here.) *)
Definition get {A} (stored default : A) : A := stored.

(** [ERPVendor(vendor_id=..., vendor_name=...)]: [vendor_id] is declared
    [str], and pydantic rejects [None] for it. *)
Definition new_ERPVendor (vendor_id : option string) (vendor_name : string)
  : Result PyException ERPVendor :=
  match vendor_id with
  | Some id => Ok {| vendor_id := id; vendor_name := vendor_name |}
  | None => Err (ValidationError "ERPVendor" "vendor_id")
  end.

Fixpoint _extract_vendor (n1_loops : list Parser.N1Loop)
  : Result PyException ERPVendor :=
  match n1_loops with
  | [] => new_ERPVendor (Some "UNKNOWN") "Unknown Vendor"
  | n1 :: rest =>
      if String.eqb (Parser.entity_identifier n1) "VN"
      then new_ERPVendor
             (get (Parser.identification_code n1) (Some "UNKNOWN"))
             (get (Parser.name n1) "Unknown Vendor")
      else _extract_vendor rest
  end.

Fixpoint _extract_ship_to (n1_loops : list Parser.N1Loop) : ERPShipTo :=
  match n1_loops with
  | [] => {| location_id := None; location_name := "Unknown Location" |}
  | n1 :: rest =>
      if String.eqb (Parser.entity_identifier n1) "ST"
      then {| location_id := Parser.identification_code n1;
              location_name := get (Parser.name n1) "Unknown Location" |}
      else _extract_ship_to rest
  end.

Definition _map_po_type (po_type_code : string) : string :=
  Py.dict_get PO_TYPE_MAP po_type_code po_type_code.

Definition _format_date (edi_date : string) : string :=
  if String.length edi_date =? 8 then
    let year := substring 0 4 edi_date in
    let month := substring 4 2 edi_date in
    let day := substring 6 2 edi_date in
    (year ++ "-" ++ month ++ "-" ++ day)%string
  else edi_date.

Definition qualifier_map : list (string * string) :=
  [("DP", "department"); ("CO", "customer_order");
   ("CR", "customer_reference"); ("PO", "previous_po");
   ("VN", "vendor_order")].

Fixpoint references_loop (ref_segments : list Parser.REFSegment)
         (references : list (string * string)) : list (string * string) :=
  match ref_segments with
  | [] => references
  | ref :: rest =>
      let qualifier := get (Parser.reference_qualifier ref) EmptyString in
      let number := get (Parser.reference_number ref) EmptyString in
      let key := Py.dict_get qualifier_map qualifier (Py.lower qualifier) in
      references_loop rest (Py.dict_set references key number)
  end.

(** [return references if references else None] *)
Definition _build_reference_numbers (ref_segments : list Parser.REFSegment)
  : option (list (string * string)) :=
  match references_loop ref_segments [] with
  | [] => None
  | references => Some references
  end.

Section WithBuiltins.

Context {builtins : PyBuiltins}.

Definition to_float (s : string) : Result PyException float :=
  match py_float s with
  | Some x => Ok x
  | None => Err (ValueError_float s)
  end.

Definition to_int (s : string) : Result PyException Z :=
  match py_int s with
  | Some n => Ok n
  | None => Err (ValueError_int s)
  end.

(** The loop of [_transform_line_items]; the first conversion that
    raises ends it. *)
Fixpoint line_items_loop (po1_items : list Parser.PO1LineItem)
         (erp_items : list ERPLineItem)
  : Result PyException (list ERPLineItem) :=
  match po1_items with
  | [] => Ok erp_items
  | po1 :: rest =>
      quantity <- to_float (get (Parser.quantity po1) "0") ;;
      unit_price <- to_float (get (Parser.unit_price po1) "0") ;;
      let total_price := py_round2 (quantity * unit_price)%float in
      line_number <- to_int (get (Parser.line_number po1) "0") ;;
      let erp_item :=
        {| line_number := line_number;
           sku := get (Parser.product_id po1) EmptyString;
           description := Parser.description po1;
           quantity := quantity;
           unit_price := unit_price;
           unit_of_measure := get (Parser.unit_of_measure po1) "EA";
           total_price := total_price |} in
      line_items_loop rest (erp_items ++ [erp_item])
  end.

Definition _transform_line_items (po1_items : list Parser.PO1LineItem)
  : Result PyException (list ERPLineItem) :=
  line_items_loop po1_items [].

Definition _calculate_total_amount (line_items : list ERPLineItem) : float :=
  let total := py_sum (map total_price line_items) in
  py_round2 total.

(** The body of the [try] block of [transform]. *)
Definition transform_body (parsed_edi : Parser.ParsedEDI850)
  : Result PyException ERPPurchaseOrder :=
  vendor <- _extract_vendor (Parser.n1_loops parsed_edi) ;;
  let ship_to := _extract_ship_to (Parser.n1_loops parsed_edi) in
  line_items <- _transform_line_items (Parser.po1_line_items parsed_edi) ;;
  let total_amount := _calculate_total_amount line_items in
  let beg := Parser.beg_segment parsed_edi in
  let po_type := _map_po_type (get (Parser.purchase_order_type beg) EmptyString) in
  let reference_numbers :=
    _build_reference_numbers (Parser.ref_segments parsed_edi) in
  Ok {| po_number := get (Parser.purchase_order_number beg) EmptyString;
        po_date := _format_date (get (Parser.beg_date beg) EmptyString);
        po_type := po_type;
        vendor := vendor;
        ship_to := ship_to;
        line_items := line_items;
        total_amount := total_amount;
        total_lines := Py.len line_items;
        reference_numbers := reference_numbers |}.

(** [except Exception as e: raise TransformationError(f"Failed to transform EDI to ERP schema: {str(e)}")] *)
Definition transform_failed (cause : PyException) : TransformationError :=
  {| transformation_message :=
       ("Failed to transform EDI to ERP schema: " ++ py_str cause)%string |}.

Definition transform (parsed_edi : Parser.ParsedEDI850)
  : Result TransformationError ERPPurchaseOrder :=
  map_err transform_failed (transform_body parsed_edi).

End WithBuiltins.

End Mapper.

(** ** [backend/mock_erp_api]: the response schema and the business rules *)

Module ErpApi.

Import Mapper.

(** The free-form dictionaries of the responses. *)
#[local] Unset Elimination Schemes.
Inductive Json : Type :=
| JStr (s : string)
| JInt (n : Z)
| JFloat (x : float)
| JList (items : list Json)
| JDict (entries : list (string * Json)).
#[local] Set Elimination Schemes.

Record ERPResponse := {
  success : bool;
  transaction_id : string;
  message : string;
  erp_po_id : option string;
  timestamp : string;
  details : option Json
}.

(** [HTTPException(status_code, detail)], the detail being the error
    response of the endpoint. *)
Record HTTPException := {
  status_code : Z;
  detail_transaction_id : string;
  error_code : string;
  error_message : string;
  detail_timestamp : string;
  error_details : Json
}.

(** What one call of the endpoint draws from outside: [uuid.uuid4()],
    [datetime.utcnow()] and [random.randint(1000, 9999)]. *)
Record Environment := {
  uuid4 : string;
  utcnow : string;
  randint : Z
}.

(** [errors.append(message)] under [if condition]. *)
Definition append_if (condition : bool) (message : string) (errors : list string)
  : list string :=
  if condition then errors ++ [message] else errors.

(** Rule 4, [for idx, item in enumerate(payload.line_items, 1)]. *)
Fixpoint line_rules (idx : Z) (items : list ERPLineItem) (errors : list string)
  : list string :=
  match items with
  | [] => errors
  | item :: rest =>
      let line := ("Line " ++ Py.str_int idx)%string in
      let errors :=
        append_if (quantity item <=? 0)%float
                  (line ++ ": Quantity must be greater than zero")%string errors in
      let errors :=
        append_if (unit_price item <? 0)%float
                  (line ++ ": Unit price cannot be negative")%string errors in
      let errors :=
        append_if (total_price item <? 0)%float
                  (line ++ ": Total price cannot be negative")%string errors in
      line_rules (idx + 1)%Z rest errors
  end.

(** [not s]: the empty string is false. *)
Definition is_empty (s : string) : bool :=
  match s with
  | EmptyString => true
  | String _ _ => false
  end.

Definition _validate_business_rules (payload : ERPPurchaseOrder) : list string :=
  let errors := [] in
  (* Rule 1 *)
  let errors :=
    append_if (total_amount payload <=? 0)%float
              "Total amount must be greater than zero" errors in
  (* Rule 2 *)
  let errors :=
    append_if (total_lines payload <? 1)%Z
              "Purchase order must contain at least one line item" errors in
  (* Rule 3 *)
  let errors :=
    append_if (negb (Py.len (line_items payload) =? total_lines payload)%Z)
              ("Line items count mismatch: expected "
                 ++ Py.str_int (total_lines payload) ++ ", got "
                 ++ Py.str_int (Py.len (line_items payload)))%string errors in
  (* Rule 4 *)
  let errors := line_rules 1%Z (line_items payload) errors in
  (* Rule 5 *)
  let errors :=
    append_if (is_empty (vendor_name (vendor payload))
               || String.eqb (vendor_name (vendor payload)) "Unknown Vendor")
              "Valid vendor information is required" errors in
  (* Rule 6 *)
  let errors :=
    append_if (is_empty (location_name (ship_to payload))
               || String.eqb (location_name (ship_to payload)) "Unknown Location")
              "Valid ship-to location is required" errors in
  (* Rule 7 *)
  let errors :=
    append_if (is_empty (po_number payload)
               || String.eqb (Py.strip (po_number payload)) EmptyString)
              "Purchase order number is required" errors in
  errors.

Definition _simulate_error (error_type transaction_id timestamp : string)
           (payload : ERPPurchaseOrder) : HTTPException :=
  let raise code error_code error_message details :=
    {| status_code := code;
       detail_transaction_id := transaction_id;
       error_code := error_code;
       error_message := error_message;
       detail_timestamp := timestamp;
       error_details := details |} in
  let validation :=
    raise 400%Z "VALIDATION_ERROR" "Invalid purchase order format"
          (JDict [("field", JStr "line_items");
                  ("issue", JStr "Missing required SKU")]) in
  if String.eqb error_type "validation" then validation
  else if String.eqb error_type "duplicate" then
    raise 409%Z "DUPLICATE_PO"
          ("Purchase order " ++ po_number payload
             ++ " already exists in ERP system")%string
          (JDict [("existing_erp_po_id",
                   JStr ("ERP-" ++ po_number payload ++ "-5678")%string)])
  else if String.eqb error_type "inventory" then
    raise 422%Z "INVENTORY_UNAVAILABLE" "One or more items are out of stock"
          (JDict [("unavailable_items",
                   JList [JDict [("sku",
                                  JStr match line_items payload with
                                       | first :: _ => sku first
                                       | [] => "UNKNOWN"
                                       end);
                                 ("available_quantity", JInt 0)]])])
  else if String.eqb error_type "timeout" then
    raise 504%Z "TIMEOUT" "ERP system timeout - please retry"
          (JDict [("retry_after", JStr "30 seconds")])
  else validation.

(** The mock endpoint: an error scenario when one is requested, a rejection
    when a business rule is violated, an acceptance otherwise. *)
Definition create_purchase_order (env : Environment) (payload : ERPPurchaseOrder)
           (x_simulate_error : option string)
  : Result HTTPException ERPResponse :=
  let transaction_id := uuid4 env in
  let timestamp := (utcnow env ++ "Z")%string in
  match x_simulate_error with
  | Some ((String _ _) as error_type) =>
      Err (_simulate_error error_type transaction_id timestamp payload)
  | _ =>
      match _validate_business_rules payload with
      | (_ :: _) as validation_errors =>
          Err {| status_code := 400;
                 detail_transaction_id := transaction_id;
                 error_code := "VALIDATION_ERROR";
                 error_message := "Business rule validation failed";
                 detail_timestamp := timestamp;
                 error_details :=
                   JDict [("errors", JList (map JStr validation_errors))] |}
      | [] =>
          let erp_po_id :=
            ("ERP-" ++ po_number payload ++ "-" ++ Py.str_int (randint env))%string in
          Ok {| success := true;
                transaction_id := transaction_id;
                message := "Purchase order created successfully";
                erp_po_id := Some erp_po_id;
                timestamp := timestamp;
                details :=
                  Some (JDict
                    [("po_number", JStr (po_number payload));
                     ("vendor", JStr (vendor_name (vendor payload)));
                     ("total_amount", JFloat (total_amount payload));
                     ("line_items_count", JInt (total_lines payload));
                     ("status", JStr "PENDING_APPROVAL");
                     ("estimated_processing_time", JStr "2-4 hours")]) |}
      end
  end.

End ErpApi.

(** ** [backend/processor/orchestrator.py]: the pipeline

    The orchestrator is modelled as constructed by default, without a
    database session ([db=None], so [db_service] is [None]); logging does not
    touch the execution record.  Time stamps and the duration are left out of
    the record.  The submission endpoint [create_purchase_order] is the
    downstream collaborator: the model takes the outcome of its call at each
    attempt as given, an [Err] carrying [str(e)] of the exception raised.
    The delays handed to [time.sleep] are kept exact, in [Q]: doubling a
    binary64 value is exact below overflow. *)

Module Orchestrator.

Import Mapper.

Inductive Status : Type := pending | success_status | failed.

(** The ["parse"] and ["transform"] entries of [result["steps"]]. *)
Record Step (A : Type) := {
  status : Status;
  data : option A;
  error : option string
}.
Arguments status {A} _.
Arguments data {A} _.
Arguments error {A} _.

(** The ["validate"] entry; the key ["error"] exists only once the
    catch-all handler has written it. *)
Record ValidateStep := {
  validate_status : Status;
  errors : option (list string);
  validate_error : option string
}.

(** The ["post_to_erp"] entry. *)
Record PostStep := {
  post_status : Status;
  post_data : option ErpApi.ERPResponse;
  post_error : option string;
  attempts : Z
}.

Record Steps := {
  parse : Step Parser.ParsedEDI850;
  transform : Step ERPPurchaseOrder;
  validate : ValidateStep;
  post_to_erp : PostStep
}.

Inductive FinalResult : Type :=
| Rejected (error : string) (validation_errors : list string)
| Submitted (erp_response : ErpApi.ERPResponse).

Record JobResult := {
  job_id : string;
  success : bool;
  steps : Steps;
  final_result : option FinalResult
}.

(** What the run does to the outside, in order. *)
Inductive Event : Type :=
| Call (attempt : Z)       (* [create_purchase_order] called at this attempt *)
| Sleep (seconds : Q).     (* [time.sleep(seconds)] *)

Record Run := {
  result : JobResult;
  events : list Event
}.

Definition initial_result (job_id : string) : JobResult :=
  {| job_id := job_id;
     success := false;
     steps :=
       {| parse := {| status := pending; data := None; error := None |};
          transform := {| status := pending; data := None; error := None |};
          validate := {| validate_status := pending; errors := None;
                         validate_error := None |};
          post_to_erp := {| post_status := pending; post_data := None;
                            post_error := None; attempts := 0%Z |} |};
     final_result := None |}.

Definition with_steps (f : Steps -> Steps) (r : JobResult) : JobResult :=
  {| job_id := job_id r; success := success r;
     steps := f (steps r); final_result := final_result r |}.

Definition with_outcome (ok : bool) (final : FinalResult) (r : JobResult)
  : JobResult :=
  {| job_id := job_id r; success := ok;
     steps := steps r; final_result := Some final |}.

Definition set_parse (p : Step Parser.ParsedEDI850) (s : Steps) : Steps :=
  {| parse := p; transform := transform s;
     validate := validate s; post_to_erp := post_to_erp s |}.

Definition set_transform (t : Step ERPPurchaseOrder) (s : Steps) : Steps :=
  {| parse := parse s; transform := t;
     validate := validate s; post_to_erp := post_to_erp s |}.

Definition set_validate (v : ValidateStep) (s : Steps) : Steps :=
  {| parse := parse s; transform := transform s;
     validate := v; post_to_erp := post_to_erp s |}.

Definition set_post (p : PostStep) (s : Steps) : Steps :=
  {| parse := parse s; transform := transform s;
     validate := validate s; post_to_erp := p |}.

(** [result["steps"]["post_to_erp"]["attempts"] = attempt] *)
Definition set_attempts (attempt : Z) (s : Steps) : Steps :=
  let p := post_to_erp s in
  set_post {| post_status := post_status p; post_data := post_data p;
              post_error := post_error p; attempts := attempt |} s.

Definition on_result (f : JobResult -> JobResult) (st : Run) : Run :=
  {| result := f (result st); events := events st |}.

Definition emit (e : Event) (st : Run) : Run :=
  {| result := result st; events := events st ++ [e] |}.

(** [range(start, stop)] *)
Definition py_range (start stop : Z) : list Z :=
  map (fun i => (start + Z.of_nat i)%Z) (seq 0 (Z.to_nat (stop - start))).

(** [str(last_error)], where [last_error] may still be [None]. *)
Definition str_last_error (last_error : option string) : string :=
  match last_error with
  | Some text => text
  | None => "None"
  end.

(** The catch-all handler: the first step, in the order of the
    dictionary, that is still [pending] becomes [failed]. *)
Definition mark_first_pending (text : string) (s : Steps) : Steps :=
  match status (parse s) with
  | pending =>
      set_parse {| status := failed; data := data (parse s);
                   error := Some text |} s
  | _ =>
  match status (transform s) with
  | pending =>
      set_transform {| status := failed; data := data (transform s);
                       error := Some text |} s
  | _ =>
  match validate_status (validate s) with
  | pending =>
      set_validate {| validate_status := failed;
                      errors := errors (validate s);
                      validate_error := Some text |} s
  | _ =>
  match post_status (post_to_erp s) with
  | pending =>
      let p := post_to_erp s in
      set_post {| post_status := failed; post_data := post_data p;
                  post_error := Some text; attempts := attempts p |} s
  | _ => s
  end end end end.

(** [_validate_payload]: the payload comes from [model_dump], so
    rebuilding the model from it cannot raise. *)
Definition _validate_payload (erp_payload : ERPPurchaseOrder)
  : option (list string) :=
  match ErpApi._validate_business_rules erp_payload with
  | [] => None
  | errors => Some errors
  end.

Section Pipeline.

Context {builtins : PyBuiltins}.

(** [IntegrationOrchestrator(max_retries, retry_delay)] and the endpoint
    it posts to. *)
Variable max_retries : Z.
Variable retry_delay : Q.
Variable create_purchase_order :
  Z -> ERPPurchaseOrder -> Result string ErpApi.ERPResponse.

Inductive LoopExit : Type :=
| Returned (response : ErpApi.ERPResponse)
| Exhausted (last_error : option string).

(** [for attempt in range(1, self.max_retries + 1)] *)
Fixpoint retry_loop (erp_payload : ERPPurchaseOrder) (range : list Z)
         (delay : Q) (last_error : option string) (st : Run)
  : LoopExit * Run :=
  match range with
  | [] => (Exhausted last_error, st)
  | attempt :: rest =>
      let st := on_result (with_steps (set_attempts attempt)) st in
      let st := emit (Call attempt) st in
      match create_purchase_order attempt erp_payload with
      | Ok response => (Returned response, st)
      | Err e =>
          let last_error := Some e in
          if (attempt <? max_retries)%Z then
            let st := emit (Sleep delay) st in
            let delay := (delay * 2)%Q in
            retry_loop erp_payload rest delay last_error st
          else
            retry_loop erp_payload rest delay last_error st
      end
  end.

Definition _post_to_erp_with_retry (erp_payload : ERPPurchaseOrder) (st : Run)
  : Result string ErpApi.ERPResponse * Run :=
  let last_error := None in
  let delay := retry_delay in
  match retry_loop erp_payload (py_range 1 (max_retries + 1)) delay last_error st with
  | (Returned response, st) => (Ok response, st)
  | (Exhausted last_error, st) =>
      let error_msg :=
        ("All " ++ Py.str_int max_retries
           ++ " retry attempts failed. Last error: "
           ++ str_last_error last_error)%string in
      let fail s :=
        let p := post_to_erp s in
        set_post {| post_status := failed; post_data := post_data p;
                    post_error := Some error_msg; attempts := attempts p |} s in
      (Err error_msg, on_result (with_steps fail) st)
  end.

Definition process_edi_file (job_id edi_content : string) : Run :=
  let st := {| result := initial_result job_id; events := [] |} in
  match Parser.parse edi_content with
  | Err e =>
      (* except EDIParsingError *)
      on_result (with_steps (fun s =>
        set_parse {| status := failed; data := data (parse s);
                     error := Some (Parser.parsing_message e) |} s)) st
  | Ok parsed_data =>
      let st := on_result (with_steps (set_parse
        {| status := success_status; data := Some parsed_data;
           error := None |})) st in
      match Mapper.transform parsed_data with
      | Err e =>
          (* except TransformationError *)
          on_result (with_steps (fun s =>
            set_transform {| status := failed; data := data (transform s);
                             error := Some (transformation_message e) |} s)) st
      | Ok erp_payload =>
          let st := on_result (with_steps (set_transform
            {| status := success_status; data := Some erp_payload;
               error := None |})) st in
          let validation_result := _validate_payload erp_payload in
          let st := on_result (with_steps (fun s => set_validate
            {| validate_status :=
                 match validation_result with
                 | None => success_status
                 | Some _ => failed
                 end;
               errors := validation_result;
               validate_error := validate_error (validate s) |} s)) st in
          match validation_result with
          | Some violations =>
              let error_msg :=
                ("Business rule validation failed: "
                   ++ Py.str_int (Py.len violations) ++ " errors")%string in
              on_result (with_outcome false (Rejected error_msg violations)) st
          | None =>
              match _post_to_erp_with_retry erp_payload st with
              | (Ok erp_response, st) =>
                  let st := on_result (with_steps (fun s =>
                    let p := post_to_erp s in
                    set_post {| post_status := success_status;
                                post_data := Some erp_response;
                                post_error := post_error p;
                                attempts := attempts p |} s)) st in
                  on_result (with_outcome true (Submitted erp_response)) st
              | (Err text, st) =>
                  (* except Exception *)
                  on_result (with_steps (mark_first_pending text)) st
              end
          end
      end
  end.

End Pipeline.

End Orchestrator.

(** ** A reference instance of the built-ins, for running examples

    The properties below are proved for every instance of [PyBuiltins].
    This instance makes the model executable on concrete documents; it
    follows CPython on the inputs the examples use: plain unsigned decimal
    numerals for [int] and [float], and binary64 values below 2^46 in
    magnitude for [round]. *)

Module Reference.

Definition digit (c : ascii) : option Z :=
  let n := nat_of_ascii c in
  if (48 <=? n) && (n <=? 57) then Some (Z.of_nat (n - 48)) else None.

(** The value and the number of digits of a digit string. *)
Fixpoint digits (s : string) (value : Z) (count : nat) : option (Z * nat) :=
  match s with
  | EmptyString => Some (value, count)
  | String c rest =>
      match digit c with
      | Some d => digits rest (10 * value + d)%Z (S count)
      | None => None
      end
  end.

Definition int_of_numeral (s : string) : option Z :=
  match digits s 0%Z 0 with
  | Some (value, S _) => Some value
  | _ => None
  end.

Definition float_of_Z (n : Z) : float := PrimFloat.of_uint63 (Uint63.of_Z n).

(** [ddd] or [ddd.dd]: the quotient of two exactly representable integers,
    rounded once, is the binary64 value nearest to the numeral. *)
Definition float_of_numeral (s : string) : option float :=
  match Py.split "."%char s with
  | [whole] =>
      match digits whole 0%Z 0 with
      | Some (n, S _) =>
          if (n <? 2 ^ 53)%Z then Some (float_of_Z n) else None
      | _ => None
      end
  | [whole; fraction] =>
      match digits (whole ++ fraction)%string 0%Z 0 with
      | Some (n, S _) =>
          let k := String.length fraction in
          if (n <? 2 ^ 53)%Z && (k <=? 22)
          then Some (float_of_Z n / float_of_Z (10 ^ Z.of_nat k))%float
          else None
      | _ => None
      end
  | _ => None
  end.

(** Rounding to two decimals on the exact value of [x], ties to even,
    then back to the nearest binary64 value. *)
Definition round2 (x : float) : float :=
  match Prim2SF x with
  | S754_finite negative m e =>
      if (0 <=? e)%Z then x
      else
        let num := (Z.pos m * 100)%Z in
        let den := (2 ^ (- e))%Z in
        let q := (num / den)%Z in
        let r := (num mod den)%Z in
        let n :=
          if (2 * r <? den)%Z then q
          else if (den <? 2 * r)%Z then (q + 1)%Z
          else if Z.even q then q else (q + 1)%Z in
        let magnitude := (float_of_Z n / float_of_Z 100)%float in
        if negative then (- magnitude)%float else magnitude
  | _ => x
  end.

(** Left-to-right addition from [0]. *)
Definition sum (xs : list float) : float :=
  fold_left PrimFloat.add xs 0%float.

Definition str (e : PyException) : string :=
  match e with
  | ValueError_float s => "could not convert string to float: '" ++ s ++ "'"
  | ValueError_int s => "invalid literal for int() with base 10: '" ++ s ++ "'"
  | ValidationError model field =>
      "1 validation error for " ++ model ++ ": " ++ field
  end%string.

Definition builtins : PyBuiltins :=
  {| py_float := float_of_numeral;
     py_int := int_of_numeral;
     py_round2 := round2;
     py_sum := sum;
     py_str := str |}.

(** A purchase order with a vendor, a ship-to location and two lines, the
    second of which has exactly seven elements. *)
Definition sample_850 : string :=
  "ISA*00*          *00*          *ZZ*SENDER*ZZ*RECEIVER*240115*1200*U*00401*000000001*0*P*>~"
  ++ "GS*PO*SENDER*RECEIVER*20240115*1200*1*X*004010~"
  ++ "ST*850*0001~"
  ++ "BEG*00*NE*PO123456**20240115~"
  ++ "REF*DP*100~"
  ++ "N1*VN*Acme Supply*92*V001~"
  ++ "N1*ST*Main Warehouse*92*W01~"
  ++ "PO1*1*10*EA*25.50**BP*SKU-1~"
  ++ "PO1*2*4*EA*3.25**BP~"
  ++ "CTT*2~SE*9*0001~GE*1*1~IEA*1*000000001~".

(** The same interchange without its BEG segment. *)
Definition no_beg_850 : string :=
  "ISA*00*          *00*          *ZZ*SENDER*ZZ*RECEIVER*240115*1200*U*00401*000000001*0*P*>~"
  ++ "GS*PO*SENDER*RECEIVER*20240115*1200*1*X*004010~"
  ++ "ST*850*0001~"
  ++ "PO1*1*10*EA*25.50**BP*SKU-1~"
  ++ "CTT*1~SE*4*0001~GE*1*1~IEA*1*000000001~".

(** The same interchange with a vendor loop of three elements only. *)
Definition short_vendor_850 : string :=
  "ISA*00*          *00*          *ZZ*SENDER*ZZ*RECEIVER*240115*1200*U*00401*000000001*0*P*>~"
  ++ "GS*PO*SENDER*RECEIVER*20240115*1200*1*X*004010~"
  ++ "ST*850*0001~"
  ++ "BEG*00*NE*PO123456**20240115~"
  ++ "N1*VN*Acme Supply~"
  ++ "N1*ST*Main Warehouse*92*W01~"
  ++ "PO1*1*10*EA*25.50**BP*SKU-1~"
  ++ "CTT*1~SE*7*0001~GE*1*1~IEA*1*000000001~".

(** The same interchange without any line item. *)
Definition no_lines_850 : string :=
  "ISA*00*          *00*          *ZZ*SENDER*ZZ*RECEIVER*240115*1200*U*00401*000000001*0*P*>~"
  ++ "GS*PO*SENDER*RECEIVER*20240115*1200*1*X*004010~"
  ++ "ST*850*0001~"
  ++ "BEG*00*NE*PO123456**20240115~"
  ++ "N1*VN*Acme Supply*92*V001~"
  ++ "N1*ST*Main Warehouse*92*W01~"
  ++ "CTT*0~SE*6*0001~GE*1*1~IEA*1*000000001~".


(** The same interchange without any vendor loop. *)
Definition no_vendor_850 : string :=
  "ISA*00*          *00*          *ZZ*SENDER*ZZ*RECEIVER*240115*1200*U*00401*000000001*0*P*>~"
  ++ "GS*PO*SENDER*RECEIVER*20240115*1200*1*X*004010~"
  ++ "ST*850*0001~"
  ++ "BEG*00*NE*PO123456**20240115~"
  ++ "N1*ST*Main Warehouse*92*W01~"
  ++ "PO1*1*10*EA*25.50**BP*SKU-1~"
  ++ "CTT*1~SE*6*0001~GE*1*1~IEA*1*000000001~".

Definition blank_document : Parser.ParsedEDI850 :=
  {| Parser.isa_header := Parser.Build_ISAHeader "" "" "" "" "" "" "" "" "";
     Parser.gs_header := Parser.Build_GSHeader "" "" "" "" "" "" "" "";
     Parser.beg_segment := Parser.Build_BEGSegment "" "" "" "";
     Parser.ref_segments := [];
     Parser.n1_loops := [];
     Parser.po1_line_items := [];
     Parser.ctt_segment := Parser.Build_CTTSegment "" None;
     Parser.control_numbers := [] |}.

(** The parsed form of a document that parses. *)
Definition parsed (edi_content : string) : Parser.ParsedEDI850 :=
  match Parser.parse edi_content with
  | Ok document => document
  | Err _ => blank_document
  end.

Definition blank_payload : Mapper.ERPPurchaseOrder :=
  {| Mapper.po_number := "";
     Mapper.po_date := "";
     Mapper.po_type := "";
     Mapper.vendor := Mapper.Build_ERPVendor "" "";
     Mapper.ship_to := Mapper.Build_ERPShipTo None "";
     Mapper.line_items := [];
     Mapper.total_amount := 0%float;
     Mapper.total_lines := 0%Z;
     Mapper.reference_numbers := None |}.

(** The payload of a document that parses and maps. *)
Definition mapped (edi_content : string) : Mapper.ERPPurchaseOrder :=
  match Mapper.transform (builtins := builtins) (parsed edi_content) with
  | Ok payload => payload
  | Err _ => blank_payload
  end.

(** [str(e)] of the endpoint's exception: status code and detail, the detail
    abbreviated to its message. *)
Definition http_str (e : ErpApi.HTTPException) : string :=
  (Py.str_int (ErpApi.status_code e) ++ ": " ++ ErpApi.error_message e)%string.

Definition environment (attempt : Z) : ErpApi.Environment :=
  {| ErpApi.uuid4 := ("txn-" ++ Py.str_int attempt)%string;
     ErpApi.utcnow := "2024-01-15T12:00:00";
     ErpApi.randint := 1000 |}.

(** The mock endpoint as the orchestrator calls it, without a simulated
    error. *)
Definition endpoint (attempt : Z) (payload : Mapper.ERPPurchaseOrder)
  : Result string ErpApi.ERPResponse :=
  map_err http_str
          (ErpApi.create_purchase_order (environment attempt) payload None).




End Reference.


(** ** [backend/main.py]: the handlers that run the parser and the mapper

    [POST /api/parse] and [POST /api/process].  The upload handler (it
    decodes bytes) and [POST /api/transform] (it takes any dictionary, not
    only one made by [model_dump]) are not modelled. *)

Module Main.

(** [class EDIParseResponse(BaseModel)] *)
Record EDIParseResponse := {
  success : bool;
  parsed_data : option Parser.ParsedEDI850;
  error : option string
}.

(** [HTTPException(status_code, detail)] with a text as detail. *)
Record HTTPException := {
  status_code : Z;
  detail : string
}.

(** The dictionary that [process_edi_to_erp] returns. *)
Record ProcessResponse := {
  process_success : bool;
  parsed_edi : Parser.ParsedEDI850;
  erp_payload : Mapper.ERPPurchaseOrder
}.

(** [parse] raises [EDIParsingError] only, so the handler for any other
    exception is never entered. *)
Definition parse_edi (edi_content : string) : EDIParseResponse :=
  match Parser.parse edi_content with
  | Ok parsed =>
      {| success := true; parsed_data := Some parsed; error := None |}
  | Err e =>
      {| success := false; parsed_data := None;
         error := Some (Parser.parsing_message e) |}
  end.

Section WithBuiltins.

Context {builtins : PyBuiltins}.

(** [parse] raises [EDIParsingError] only and [transform] raises
    [TransformationError] only, so the handler that answers 500 is never
    entered. *)
Definition process_edi_to_erp (edi_content : string)
  : Result HTTPException ProcessResponse :=
  match Parser.parse edi_content with
  | Err e =>
      Err {| status_code := 400;
             detail := ("Parsing error: " ++ Parser.parsing_message e)%string |}
  | Ok parsed =>
      match Mapper.transform parsed with
      | Err e =>
          Err {| status_code := 400;
                 detail := ("Transformation error: "
                              ++ Mapper.transformation_message e)%string |}
      | Ok payload =>
          Ok {| process_success := true;
                parsed_edi := parsed;
                erp_payload := payload |}
      end
  end.

End WithBuiltins.

End Main.
(** * Vocabulary of the properties *)

(** ** The document parser *)

Module ParserSpec.

Import Parser.

(** The required segments with their minimum number of elements, in the
    order in which [parse] looks for them. *)
Definition required_segments : list (string * nat) :=
  [("ISA", 17); ("GS", 9); ("BEG", 6); ("CTT", 2)].

(** The first segment with this identifier exists and is long enough. *)
Definition complete (segments : list segment) (required : string * nat) : bool :=
  match _find_segment segments (fst required) with
  | Some seg => snd required <=? List.length seg
  | None => false
  end.

(** The first required segment, in the fixed order, that is missing or
    short. *)
Definition first_defect (segments : list segment) : option string :=
  option_map fst
    (find (fun required => negb (complete segments required)) required_segments).

Definition defect_message (segment_id : string) : string :=
  ("Failed to parse EDI 850: " ++ segment_id
     ++ " segment not found or incomplete")%string.

(** An occurrence of a repeatable segment below its minimum arity. *)
Definition undersized (seg : segment) : bool :=
  (has_id "REF" seg && (List.length seg <? 3))
  || (has_id "N1" seg && (List.length seg <? 3))
  || (has_id "PO1" seg && (List.length seg <? 7)).

Definition without_undersized (segments : list segment) : list segment :=
  filter (fun seg => negb (undersized seg)) segments.

End ParserSpec.


(** ** The schema mapper *)

Module MapperSpec.

Import Mapper.

(** A name/address loop whose entity-role code is "VN". *)
Definition is_vendor (n1 : Parser.N1Loop) : bool :=
  String.eqb (Parser.entity_identifier n1) "VN".

Definition sentinel_vendor : ERPVendor :=
  {| vendor_id := "UNKNOWN"; vendor_name := "Unknown Vendor" |}.

(** The same parsed document with another totals segment. *)
Definition with_ctt (document : Parser.ParsedEDI850) (ctt : Parser.CTTSegment)
  : Parser.ParsedEDI850 :=
  {| Parser.isa_header := Parser.isa_header document;
     Parser.gs_header := Parser.gs_header document;
     Parser.beg_segment := Parser.beg_segment document;
     Parser.ref_segments := Parser.ref_segments document;
     Parser.n1_loops := Parser.n1_loops document;
     Parser.po1_line_items := Parser.po1_line_items document;
     Parser.ctt_segment := ctt;
     Parser.control_numbers := Parser.control_numbers document |}.

(** The line total of a mapped item is the rounded product. *)
Definition line_total_computed {builtins : PyBuiltins} (item : ERPLineItem) : Prop :=
  total_price item = py_round2 (quantity item * unit_price item)%float.

End MapperSpec.

(** ** The business rules *)

Module ErpApiSpec.

Import Mapper ErpApi.

Definition total_amount_violation : string :=
  "Total amount must be greater than zero".



Definition with_sku (new_sku : string) (item : ERPLineItem) : ERPLineItem :=
  {| line_number := line_number item;
     sku := new_sku;
     description := description item;
     quantity := quantity item;
     unit_price := unit_price item;
     unit_of_measure := unit_of_measure item;
     total_price := total_price item |}.

(** The same payload with the SKU of every line item rewritten. *)
Definition with_skus (rename : ERPLineItem -> string) (payload : ERPPurchaseOrder)
  : ERPPurchaseOrder :=
  {| po_number := po_number payload;
     po_date := po_date payload;
     po_type := po_type payload;
     vendor := vendor payload;
     ship_to := ship_to payload;
     line_items := map (fun item => with_sku (rename item) item) (line_items payload);
     total_amount := total_amount payload;
     total_lines := total_lines payload;
     reference_numbers := reference_numbers payload |}.

End ErpApiSpec.

(** ** The orchestrator *)

Module OrchestratorSpec.

Import Orchestrator.

(** What the retry loop does to the outside when it makes [n] attempts:
    attempt 1 comes first, and every attempt [k >= 2] comes right after a
    sleep of [retry_delay * 2^(k-2)] seconds. *)
Fixpoint backoff_trace (retry_delay : Q) (n : nat) : list Event :=
  match n with
  | 0 => []
  | S before =>
      match before with
      | 0 => [Call 1]
      | S j =>
          backoff_trace retry_delay before
            ++ [Sleep (retry_delay * inject_Z (2 ^ Z.of_nat j))%Q;
                Call (Z.of_nat n)]
      end
  end.

(** The recorded attempt count of a run. *)
Definition attempts_of (st : Run) : Z :=
  attempts (post_to_erp (steps (result st))).

(** The delay after [i] doublings. *)
Definition delay_after (retry_delay : Q) (i : nat) : Q :=
  (retry_delay * inject_Z (2 ^ Z.of_nat i))%Q.

(** The events on entry to the iteration of attempt [i + 1] when [n]
    iterations are left: after the last attempt there is no sleep. *)
Definition entry_trace (retry_delay : Q) (i n : nat) : list Event :=
  match n, i with
  | 0, _ => backoff_trace retry_delay i
  | _, 0 => []
  | _, S j => backoff_trace retry_delay i ++ [Sleep (delay_after retry_delay j)]
  end.

(** [All {max_retries} retry attempts failed. Last error: {last}] *)
Definition exhausted_message (max_retries : Z) (last : string) : string :=
  ("All " ++ Py.str_int max_retries ++ " retry attempts failed. Last error: "
     ++ last)%string.

End OrchestratorSpec.

(** ** Vocabulary of the further properties *)

Module ParserMore.

Import Parser.

(** The identifiers that the parser looks for. *)
Definition known_ids : list string :=
  ["ISA"; "GS"; "BEG"; "REF"; "N1"; "PO1"; "CTT"; "SE"; "GE"; "IEA"].

Definition recognised (seg : segment) : bool :=
  existsb (fun id => has_id id seg) known_ids.

(** A string without white space at either end. *)
Definition trimmed (s : string) : Prop := Py.strip s = s.

Definition optional (s : option string) : list string :=
  match s with
  | Some text => [text]
  | None => []
  end.

(** Every string that the parser stores in a parsed document. *)
Definition captured (document : ParsedEDI850) : list string :=
  let isa := isa_header document in
  let gs := gs_header document in
  let beg := beg_segment document in
  let ctt := ctt_segment document in
  [authorization_info isa; security_info isa; sender_id isa; receiver_id isa;
   isa_date isa; isa_time isa; isa_control_number isa;
   acknowledgment_requested isa; usage_indicator isa]
  ++ [functional_id_code gs; sender_code gs; receiver_code gs; gs_date gs;
      gs_time gs; gs_control_number gs; responsible_agency gs; version gs]
  ++ [transaction_set_purpose beg; purchase_order_type beg;
      purchase_order_number beg; beg_date beg]
  ++ flat_map (fun ref => [reference_qualifier ref; reference_number ref])
              (ref_segments document)
  ++ flat_map (fun n1 => [entity_identifier n1; name n1]
                           ++ optional (identification_code_qualifier n1)
                           ++ optional (identification_code n1))
              (n1_loops document)
  ++ flat_map (fun po1 => [line_number po1; quantity po1; unit_of_measure po1;
                           unit_price po1; product_id_qualifier po1;
                           product_id po1]
                            ++ optional (description po1))
              (po1_line_items document)
  ++ [line_item_count ctt] ++ optional (hash_total ctt)
  ++ map snd (control_numbers document).

(** The character occurs in the string. *)
Fixpoint occurs (c : ascii) (s : string) : bool :=
  match s with
  | EmptyString => false
  | String first rest => Ascii.eqb first c || occurs c rest
  end.

(** [sep.join(pieces)] for a one-character separator. *)
Fixpoint join (sep : ascii) (pieces : list string) : string :=
  match pieces with
  | [] => EmptyString
  | [piece] => piece
  | piece :: rest => (piece ++ String sep (join sep rest))%string
  end.

(** A trailer segment is present with its two fields. *)
Definition trailer_complete (segments : list segment) (segment_id : string) : bool :=
  match _find_segment segments segment_id with
  | Some seg => 3 <=? List.length seg
  | None => false
  end.

(** The two entries that a complete trailer contributes. *)
Definition trailer_entries (segments : list segment)
           (segment_id key1 key2 : string) : list (string * string) :=
  if trailer_complete segments segment_id
  then let seg := the_segment (_find_segment segments segment_id) in
       [(key1, elem seg 1); (key2, elem seg 2)]
  else [].

(** The segments that the parser reads from their first occurrence. *)
Definition single_ids : list string :=
  ["ISA"; "GS"; "BEG"; "CTT"; "SE"; "GE"; "IEA"].

(** The segments without the later occurrences of an identifier. *)
Fixpoint first_only (segment_id : string) (segments : list segment)
  : list segment :=
  match segments with
  | [] => []
  | seg :: rest =>
      if has_id segment_id seg
      then seg :: filter (fun later => negb (has_id segment_id later)) rest
      else seg :: first_only segment_id rest
  end.

End ParserMore.

Module MapperMore.

Import Mapper.

(** The call returned. *)
Definition is_some_result {E A} (r : Result E A) : bool :=
  match r with
  | Ok _ => true
  | Err _ => false
  end.

(** A name/address loop whose entity-role code is "ST". *)
Definition is_ship_to (n1 : Parser.N1Loop) : bool :=
  String.eqb (Parser.entity_identifier n1) "ST".

(** The ship-to that the first "ST" loop gives, or the sentinel. *)
Definition resolved_ship_to (n1_loops : list Parser.N1Loop) : ERPShipTo :=
  match find is_ship_to n1_loops with
  | Some n1 => {| location_id := Parser.identification_code n1;
                  location_name := Parser.name n1 |}
  | None => {| location_id := None; location_name := "Unknown Location" |}
  end.

(** The first "VN" loop, when there is one, carries an identification
    code. *)
Definition vendor_identified (n1_loops : list Parser.N1Loop) : bool :=
  match find MapperSpec.is_vendor n1_loops with
  | Some n1 =>
      match Parser.identification_code n1 with
      | Some _ => true
      | None => false
      end
  | None => true
  end.

Definition is_some {A} (x : option A) : bool :=
  match x with
  | Some _ => true
  | None => false
  end.

(** The three numeric fields of a line are accepted by [float] and [int]. *)
Definition line_convertible {builtins : PyBuiltins} (po1 : Parser.PO1LineItem)
  : bool :=
  is_some (py_float (Parser.quantity po1))
  && is_some (py_float (Parser.unit_price po1))
  && is_some (py_int (Parser.line_number po1)).

(** A mapped line item against the parsed line it comes from. *)
Definition line_corresponds {builtins : PyBuiltins} (po1 : Parser.PO1LineItem)
           (item : ERPLineItem) : Prop :=
  py_int (Parser.line_number po1) = Some (line_number item)
  /\ py_float (Parser.quantity po1) = Some (quantity item)
  /\ py_float (Parser.unit_price po1) = Some (unit_price item)
  /\ sku item = Parser.product_id po1
  /\ description item = Parser.description po1
  /\ unit_of_measure item = Parser.unit_of_measure po1.

(** The key under which a reference is stored. *)
Definition reference_key (ref : Parser.REFSegment) : string :=
  Py.dict_get qualifier_map (Parser.reference_qualifier ref)
              (Py.lower (Parser.reference_qualifier ref)).

(** [d.get(key)] *)
Fixpoint lookup (d : list (string * string)) (key : string) : option string :=
  match d with
  | [] => None
  | (k, v) :: rest => if String.eqb k key then Some v else lookup rest key
  end.

(** The number of the last reference stored under a key. *)
Definition last_reference (ref_segments : list Parser.REFSegment) (key : string)
  : option string :=
  option_map Parser.reference_number
             (find (fun ref => String.eqb (reference_key ref) key)
                   (rev ref_segments)).

(** The date without the two dashes that [_format_date] puts in. *)
Definition without_dashes (iso_date : string) : string :=
  (substring 0 4 iso_date ++ substring 5 2 iso_date
     ++ substring 8 2 iso_date)%string.

End MapperMore.

Module ErpApiMore.

Import Mapper ErpApi ErpApiSpec.


(** The violations of all rules but rule 3, the count check. *)
Definition violations_without_count_check (payload : ERPPurchaseOrder)
  : list string :=
  (if (total_amount payload <=? 0)%float then [total_amount_violation] else [])
  ++ (if (total_lines payload <? 1)%Z
      then ["Purchase order must contain at least one line item"] else [])
  ++ line_rules 1 (line_items payload) []
  ++ (if is_empty (vendor_name (vendor payload))
         || String.eqb (vendor_name (vendor payload)) "Unknown Vendor"
      then ["Valid vendor information is required"] else [])
  ++ (if is_empty (location_name (ship_to payload))
         || String.eqb (location_name (ship_to payload)) "Unknown Location"
      then ["Valid ship-to location is required"] else [])
  ++ (if is_empty (po_number payload)
         || String.eqb (Py.strip (po_number payload)) EmptyString
      then ["Purchase order number is required"] else []).

(** The status codes of the simulated errors. *)
Definition simulated_status_codes : list Z := [400; 409; 422; 504]%Z.

Definition simulated_error_types : list string :=
  ["validation"; "duplicate"; "inventory"; "timeout"].

(** The text that starts the violations of the line at a 0-based
    position. *)
Definition line_label (position : nat) : string :=
  ("Line " ++ Py.str_int (Z.of_nat position + 1))%string.

End ErpApiMore.

Module OrchestratorMore.

Import Orchestrator OrchestratorSpec.

(** The four statuses of a record, in the order of the stages. *)
Definition statuses (r : JobResult) : list Status :=
  [status (parse (steps r)); status (transform (steps r));
   validate_status (validate (steps r)); post_status (post_to_erp (steps r))].

(** The statuses of a run whose first [n] stages succeeded: either all four
    did, or the next one failed and the later ones were not entered. *)
Definition progress (n : nat) : list Status :=
  repeat success_status n
  ++ (if n =? 4 then [] else failed :: repeat pending (3 - n)).

(** The seconds slept in a list of events. *)
Fixpoint total_sleep (evs : list Event) : Q :=
  match evs with
  | [] => 0%Q
  | Sleep seconds :: rest => (seconds + total_sleep rest)%Q
  | Call _ :: rest => total_sleep rest
  end.

(** The calls of the endpoint in a list of events. *)
Fixpoint count_calls (evs : list Event) : nat :=
  match evs with
  | [] => 0
  | Call _ :: rest => S (count_calls rest)
  | Sleep _ :: rest => count_calls rest
  end.

(** The parse and transform entries of a run that got through them. *)
Definition parsed_step (parsed : Parser.ParsedEDI850) : Step Parser.ParsedEDI850 :=
  {| status := success_status; data := Some parsed; error := None |}.

Definition mapped_step (payload : Mapper.ERPPurchaseOrder)
  : Step Mapper.ERPPurchaseOrder :=
  {| status := success_status; data := Some payload; error := None |}.

Definition validated_step : ValidateStep :=
  {| validate_status := success_status; errors := None; validate_error := None |}.

Definition untouched_post : PostStep :=
  {| post_status := pending; post_data := None; post_error := None;
     attempts := 0 |}.

(** The record of a run that reached the submit stage. *)
Definition submit_record (job_id : string) (parsed : Parser.ParsedEDI850)
           (payload : Mapper.ERPPurchaseOrder) (ok : bool) (post : PostStep)
           (final : option FinalResult) : JobResult :=
  {| job_id := job_id;
     success := ok;
     steps := {| parse := parsed_step parsed;
                 transform := mapped_step payload;
                 validate := validated_step;
                 post_to_erp := post |};
     final_result := final |}.

(** [Business rule validation failed: {n} errors] *)
Definition rejection_message (violations : list string) : string :=
  ("Business rule validation failed: " ++ Py.str_int (Py.len violations)
     ++ " errors")%string.

(** The mock endpoint as the orchestrator calls it: no simulated error, the
    exception rendered as text. *)
Definition mock_endpoint (env : Z -> ErpApi.Environment)
           (http_str : ErpApi.HTTPException -> string)
           (attempt : Z) (payload : Mapper.ERPPurchaseOrder)
  : Result string ErpApi.ERPResponse :=
  map_err http_str (ErpApi.create_purchase_order (env attempt) payload None).

End OrchestratorMore.

(** ** Further documents for running examples *)

Module Examples.

(** The sample interchange with two references under the qualifier DP. *)
Definition two_departments_850 : string :=
  "ISA*00*          *00*          *ZZ*SENDER*ZZ*RECEIVER*240115*1200*U*00401*000000001*0*P*>~"
  ++ "GS*PO*SENDER*RECEIVER*20240115*1200*1*X*004010~"
  ++ "ST*850*0001~"
  ++ "BEG*00*NE*PO123456**20240115~"
  ++ "REF*DP*100~"
  ++ "REF*DP*200~"
  ++ "N1*VN*Acme Supply*92*V001~"
  ++ "N1*ST*Main Warehouse*92*W01~"
  ++ "PO1*1*10*EA*25.50**BP*SKU-1~"
  ++ "CTT*1~SE*8*0001~GE*1*1~IEA*1*000000001~".

(** The sample interchange with a quantity of zero on its second line. *)
Definition zero_quantity_850 : string :=
  "ISA*00*          *00*          *ZZ*SENDER*ZZ*RECEIVER*240115*1200*U*00401*000000001*0*P*>~"
  ++ "GS*PO*SENDER*RECEIVER*20240115*1200*1*X*004010~"
  ++ "ST*850*0001~"
  ++ "BEG*00*NE*PO123456**20240115~"
  ++ "N1*VN*Acme Supply*92*V001~"
  ++ "N1*ST*Main Warehouse*92*W01~"
  ++ "PO1*1*10*EA*25.50**BP*SKU-1~"
  ++ "PO1*2*0*EA*3.25**BP*SKU-2~"
  ++ "CTT*2~SE*8*0001~GE*1*1~IEA*1*000000001~".

Definition blank_item : Mapper.ERPLineItem :=
  {| Mapper.line_number := 0;
     Mapper.sku := "";
     Mapper.description := None;
     Mapper.quantity := 0%float;
     Mapper.unit_price := 0%float;
     Mapper.unit_of_measure := "";
     Mapper.total_price := 0%float |}.

(** The line item at a position of a mapped document. *)
Definition mapped_line (edi_content : string) (position : nat)
  : Mapper.ERPLineItem :=
  nth position (Mapper.line_items (Reference.mapped edi_content)) blank_item.

(** The error that the mapper raises on a document that parses. *)
Definition mapping_error (edi_content : string) : Mapper.TransformationError :=
  match Mapper.transform (builtins := Reference.builtins)
                         (Reference.parsed edi_content) with
  | Ok _ => {| Mapper.transformation_message := "" |}
  | Err e => e
  end.

End Examples.
(** * Properties *)

(** ** The document parser *)

Section ParserFacts.

Import Parser ParserSpec.

Lemma absent_or_short_complete (segments : list segment) (id : string) (n : nat) :
  0 < n ->
  absent_or_short (_find_segment segments id) n = negb (complete segments (id, n)).
Proof.
  intros Hn. unfold complete, absent_or_short. simpl.
  destruct (_find_segment segments id) as [[|first rest]|]; simpl.
  - destruct n; [lia | reflexivity].
  - rewrite Nat.ltb_antisym. reflexivity.
  - reflexivity.
Qed.

Lemma collect_app {A} (arity : nat) (build : segment -> A)
      (found : list segment) (result : list A) :
  collect arity build found result
  = result ++ map build (filter (fun seg => arity <=? List.length seg) found).
Proof.
  revert result. induction found as [|seg rest IH]; intros result; simpl.
  - now rewrite app_nil_r.
  - destruct (arity <=? List.length seg); simpl.
    + rewrite IH, <- app_assoc. reflexivity.
    + apply IH.
Qed.

Lemma collect_filter {A} (arity : nat) (build : segment -> A) (found : list segment) :
  collect arity build found []
  = map build (filter (fun seg => arity <=? List.length seg) found).
Proof. now rewrite collect_app. Qed.

Lemma find_filter_keep {A} (p keep : A -> bool) (l : list A) :
  (forall x, p x = true -> keep x = true) ->
  find p (filter keep l) = find p l.
Proof.
  intros Hkeep. induction l as [|x l IH]; simpl; [reflexivity|].
  destruct (keep x) eqn:Hk; simpl.
  - destruct (p x); [reflexivity | exact IH].
  - destruct (p x) eqn:Hp; [|exact IH].
    rewrite (Hkeep x Hp) in Hk. discriminate.
Qed.

Lemma filter_filter_keep {A} (p keep : A -> bool) (l : list A) :
  (forall x, p x = true -> keep x = true) ->
  filter p (filter keep l) = filter p l.
Proof.
  intros Hkeep. induction l as [|x l IH]; simpl; [reflexivity|].
  destruct (keep x) eqn:Hk; simpl.
  - destruct (p x); [f_equal|]; exact IH.
  - destruct (p x) eqn:Hp; [|exact IH].
    rewrite (Hkeep x Hp) in Hk. discriminate.
Qed.

Lemma filter_both {A} (p q : A -> bool) (l : list A) :
  filter q (filter p l) = filter (fun x => p x && q x) l.
Proof.
  induction l as [|x l IH]; simpl; [reflexivity|].
  destruct (p x); simpl; [destruct (q x); [f_equal|]|]; exact IH.
Qed.

(** Two different identifiers never match the same segment. *)
Lemma has_id_other (id other : string) (seg : segment) :
  String.eqb id other = false -> has_id id seg = true -> has_id other seg = false.
Proof.
  intros Hne. destruct seg as [|first rest]; simpl; [discriminate|].
  intros Hid. apply String.eqb_eq in Hid. subst first. exact Hne.
Qed.

Lemma find_without_undersized (segments : list segment) (id : string) :
  String.eqb id "REF" = false -> String.eqb id "N1" = false ->
  String.eqb id "PO1" = false ->
  _find_segment (without_undersized segments) id = _find_segment segments id.
Proof.
  intros Href Hn1 Hpo1. apply find_filter_keep. intros seg Hid.
  unfold undersized.
  rewrite (has_id_other id "REF" seg Href Hid),
          (has_id_other id "N1" seg Hn1 Hid),
          (has_id_other id "PO1" seg Hpo1 Hid).
  reflexivity.
Qed.

(** The occurrences that are long enough all survive the removal of the
    undersized ones. *)
Lemma collect_without_undersized {A} (id : string) (arity : nat)
      (build : segment -> A) (segments : list segment) :
  (forall seg, has_id id seg = true -> (arity <=? List.length seg) = true ->
               undersized seg = false) ->
  collect arity build (_find_all_segments (without_undersized segments) id) []
  = collect arity build (_find_all_segments segments id) [].
Proof.
  intros Hkeep. rewrite !collect_filter. f_equal.
  unfold _find_all_segments, without_undersized.
  rewrite !filter_both.
  rewrite <- (filter_both (fun seg => negb (undersized seg))).
  apply filter_filter_keep. intros seg Hseg.
  apply andb_true_iff in Hseg as [Hid Hlen].
  now rewrite (Hkeep seg Hid Hlen).
Qed.

Lemma long_enough_not_undersized (id : string) (arity : nat) (seg : segment) :
  In (id, arity) [("REF", 3); ("N1", 3); ("PO1", 7)] ->
  has_id id seg = true -> (arity <=? List.length seg) = true ->
  undersized seg = false.
Proof.
  intros Hin Hid Hlen. apply Nat.leb_le in Hlen. unfold undersized.
  simpl in Hin.
  destruct Hin as [H|[H|[H|[]]]]; inversion H; subst id arity; clear H.
  - rewrite Hid, (has_id_other "REF" "N1" seg eq_refl Hid),
            (has_id_other "REF" "PO1" seg eq_refl Hid).
    simpl. rewrite ?orb_false_r. apply Nat.ltb_ge. exact Hlen.
  - rewrite Hid, (has_id_other "N1" "REF" seg eq_refl Hid),
            (has_id_other "N1" "PO1" seg eq_refl Hid).
    simpl. rewrite ?orb_false_r. apply Nat.ltb_ge. exact Hlen.
  - rewrite Hid, (has_id_other "PO1" "REF" seg eq_refl Hid),
            (has_id_other "PO1" "N1" seg eq_refl Hid).
    simpl. apply Nat.ltb_ge. exact Hlen.
Qed.

Lemma trailer_without_undersized (segments : list segment)
      (id key1 key2 : string) (control : list (string * string)) :
  String.eqb id "REF" = false -> String.eqb id "N1" = false ->
  String.eqb id "PO1" = false ->
  trailer (without_undersized segments) id key1 key2 control
  = trailer segments id key1 key2 control.
Proof.
  intros Href Hn1 Hpo1. unfold trailer.
  now rewrite find_without_undersized.
Qed.

Lemma parse_segments_without_undersized (segments : list segment) :
  parse_segments (without_undersized segments) = parse_segments segments.
Proof.
  unfold parse_segments, _parse_isa, _parse_gs, _parse_beg, _parse_ctt,
    _parse_ref, _parse_n1, _parse_po1, _parse_control_trailers.
  rewrite !find_without_undersized by reflexivity.
  rewrite !trailer_without_undersized by reflexivity.
  rewrite (collect_without_undersized "REF" 3 ref_of),
          (collect_without_undersized "N1" 3 n1_of),
          (collect_without_undersized "PO1" 7 po1_of).
  - reflexivity.
  - intros seg. apply (long_enough_not_undersized "PO1" 7). simpl. auto.
  - intros seg. apply (long_enough_not_undersized "N1" 3). simpl. auto.
  - intros seg. apply (long_enough_not_undersized "REF" 3). simpl. auto.
Qed.

(** C2.  For every input string, [parse] either returns a fully populated
    parsed document or fails with the error that names the first required
    segment, in the fixed order ISA, GS, BEG, CTT, whose first occurrence is
    missing or has fewer elements than its minimum.  In particular a document
    without a BEG segment yields no parsed document, and the error names BEG
    when it is BEG that comes first in that order, that is, when ISA and GS
    are present and complete. *)
Theorem parse_fails_fast (edi_content : string) :
  let segments := _split_segments edi_content in
  match first_defect segments with
  | None =>
      exists isa gs beg ctt,
        _parse_isa segments = Ok isa /\ _parse_gs segments = Ok gs /\
        _parse_beg segments = Ok beg /\ _parse_ctt segments = Ok ctt /\
        parse edi_content
        = Ok {| isa_header := isa;
                gs_header := gs;
                beg_segment := beg;
                ref_segments := _parse_ref segments;
                n1_loops := _parse_n1 segments;
                po1_line_items := _parse_po1 segments;
                ctt_segment := ctt;
                control_numbers := _parse_control_trailers segments |}
  | Some segment_id =>
      parse edi_content = Err {| parsing_message := defect_message segment_id |}
  end
  /\ (_find_segment segments "BEG" = None ->
      (exists e, parse edi_content = Err e)
      /\ (complete segments ("ISA", 17) = true ->
          complete segments ("GS", 9) = true ->
          parse edi_content = Err {| parsing_message := defect_message "BEG" |})).
Proof.
  intros segments.
  assert (Hisa := absent_or_short_complete segments "ISA" 17 ltac:(lia)).
  assert (Hgs := absent_or_short_complete segments "GS" 9 ltac:(lia)).
  assert (Hbeg := absent_or_short_complete segments "BEG" 6 ltac:(lia)).
  assert (Hctt := absent_or_short_complete segments "CTT" 2 ltac:(lia)).
  unfold parse, parse_segments, first_defect, required_segments,
    _parse_isa, _parse_gs, _parse_beg, _parse_ctt.
  fold segments. rewrite Hisa, Hgs, Hbeg, Hctt. cbn [find option_map].
  split.
  - destruct (complete segments ("ISA", 17)); cbn; [|reflexivity].
    destruct (complete segments ("GS", 9)); cbn; [|reflexivity].
    destruct (complete segments ("BEG", 6)); cbn; [|reflexivity].
    destruct (complete segments ("CTT", 2)); cbn; [|reflexivity].
    do 4 eexists. repeat split; reflexivity.
  - intros Hmissing.
    assert (Hno : complete segments ("BEG", 6) = false).
    { unfold complete. cbn [fst]. now rewrite Hmissing. }
    rewrite Hno. split.
    + destruct (complete segments ("ISA", 17)); cbn; [|eauto].
      destruct (complete segments ("GS", 9)); cbn; eauto.
    + intros -> ->. reflexivity.
Qed.

(** A document with complete ISA and GS segments and no BEG segment is
    refused with the error that names BEG. *)
Lemma parse_fails_fast_witness :
  parse Reference.no_beg_850
  = Err {| parsing_message := defect_message "BEG" |}.
Proof.
  destruct (parse_fails_fast Reference.no_beg_850) as [_ Hbeg].
  apply Hbeg; reflexivity.
Defined.

(** C8.  For every input document, the reference, name/address and line-item
    lists of the parser hold exactly the REF, N1 and PO1 occurrences with at
    least 3, 3 and 7 elements, in document order: shorter occurrences are
    left out.  Their presence changes nothing else: the outcome of [parse],
    success or failure, is the outcome on the segments without them. *)
Theorem undersized_occurrences_skipped (edi_content : string) :
  let segments := _split_segments edi_content in
  _parse_ref segments
  = map ref_of (filter (fun seg => 3 <=? List.length seg)
                       (_find_all_segments segments "REF"))
  /\ _parse_n1 segments
     = map n1_of (filter (fun seg => 3 <=? List.length seg)
                         (_find_all_segments segments "N1"))
  /\ _parse_po1 segments
     = map po1_of (filter (fun seg => 7 <=? List.length seg)
                          (_find_all_segments segments "PO1"))
  /\ parse edi_content
     = map_err parse_failed (parse_segments (without_undersized segments)).
Proof.
  intros segments. unfold _parse_ref, _parse_n1, _parse_po1.
  rewrite !collect_filter. repeat split.
  unfold parse. fold segments.
  now rewrite parse_segments_without_undersized.
Qed.

End ParserFacts.

(** ** The schema mapper *)

Section MapperFacts.

Import Mapper MapperSpec.

Context {builtins : PyBuiltins}.

Lemma line_items_loop_computed (po1_items : list Parser.PO1LineItem) :
  forall erp_items items,
    Forall line_total_computed erp_items ->
    line_items_loop po1_items erp_items = Ok items ->
    Forall line_total_computed items.
Proof.
  induction po1_items as [|po1 rest IH]; intros erp_items items Hacc Hloop.
  - cbn in Hloop. now inversion Hloop; subst.
  - cbn [line_items_loop] in Hloop. unfold bind in Hloop.
    destruct (to_float _) as [q|]; [|discriminate].
    destruct (to_float _) as [up|]; [|discriminate].
    destruct (to_int _) as [n|]; [|discriminate].
    apply IH in Hloop; [exact Hloop|].
    apply Forall_app. split; [exact Hacc|].
    constructor; [reflexivity | constructor].
Qed.

Lemma extract_vendor_first (n1_loops : list Parser.N1Loop) :
  _extract_vendor n1_loops
  = match find is_vendor n1_loops with
    | Some n1 =>
        new_ERPVendor (Parser.identification_code n1) (Parser.name n1)
    | None => Ok sentinel_vendor
    end.
Proof.
  induction n1_loops as [|n1 rest IH]; cbn; [reflexivity|].
  unfold is_vendor at 1.
  destruct (String.eqb (Parser.entity_identifier n1) "VN"); [reflexivity | exact IH].
Qed.

(** C1.  Whenever the mapper returns a payload for a parsed document, each
    line item's [total_price] is [round(quantity * unit_price, 2)], the
    order's [total_amount] is [round(sum of the line totals, 2)] and
    [total_lines] is the length of the mapped line-item list; the totals
    segment of the document plays no part: with any other CTT segment the
    mapper returns the same payload. *)
Theorem totals_are_computed (document : Parser.ParsedEDI850)
        (payload : ERPPurchaseOrder) :
  transform document = Ok payload ->
  Forall line_total_computed (line_items payload)
  /\ total_amount payload
     = py_round2 (py_sum (map total_price (line_items payload)))
  /\ total_lines payload = Z.of_nat (List.length (line_items payload))
  /\ forall ctt, transform (with_ctt document ctt) = Ok payload.
Proof.
  intros Hmap.
  assert (Hctt : forall ctt, transform (with_ctt document ctt) = Ok payload)
    by (intros ctt; exact Hmap).
  unfold transform, transform_body, bind in Hmap.
  destruct (_extract_vendor _) as [v|]; [|discriminate].
  destruct (_transform_line_items _) as [items|] eqn:Hitems; [|discriminate].
  cbn in Hmap. inversion Hmap; subst payload; clear Hmap. cbn.
  repeat split; [|exact Hctt].
  apply (line_items_loop_computed (Parser.po1_line_items document) [] items);
    [constructor | exact Hitems].
Qed.

(** The SKU of a mapped line is the product id of the parsed line. *)
Lemma line_items_loop_skus (po1_items : list Parser.PO1LineItem) :
  forall erp_items items,
    line_items_loop po1_items erp_items = Ok items ->
    map sku items = map sku erp_items ++ map Parser.product_id po1_items.
Proof.
  induction po1_items as [|po1 rest IH]; intros erp_items items Hloop.
  - cbn in Hloop. inversion Hloop; subst. now rewrite app_nil_r.
  - cbn [line_items_loop] in Hloop. unfold bind in Hloop.
    destruct (to_float _) as [q|]; [|discriminate].
    destruct (to_float _) as [up|]; [|discriminate].
    destruct (to_int _) as [n|]; [|discriminate].
    apply IH in Hloop. rewrite Hloop, map_app, <- app_assoc. reflexivity.
Qed.

(** C6.  The vendor comes from the first name/address loop whose entity-role
    code is "VN": its name and identification code make the vendor.  When
    the document has no such loop the vendor is the sentinel with id
    "UNKNOWN" and name "Unknown Vendor", and the missing loop is never the
    reason of a failure: the mapper then fails only where the conversion of
    the line items fails. *)
Theorem vendor_resolution (document : Parser.ParsedEDI850) :
  let loops := Parser.n1_loops document in
  match find is_vendor loops with
  | Some n1 =>
      _extract_vendor loops
      = new_ERPVendor (Parser.identification_code n1) (Parser.name n1)
      /\ (forall payload,
            transform document = Ok payload ->
            vendor_name (vendor payload) = Parser.name n1
            /\ Parser.identification_code n1 = Some (vendor_id (vendor payload)))
  | None =>
      _extract_vendor loops = Ok sentinel_vendor
      /\ (forall payload,
            transform document = Ok payload -> vendor payload = sentinel_vendor)
      /\ (forall e,
            transform document = Err e ->
            exists cause,
              _transform_line_items (Parser.po1_line_items document) = Err cause
              /\ e = transform_failed cause)
  end.
Proof.
  intros loops. assert (Hfirst := extract_vendor_first loops).
  unfold transform, transform_body, bind. fold loops.
  destruct (find is_vendor loops) as [n1|].
  - split; [exact Hfirst|]. intros payload. rewrite Hfirst.
    unfold new_ERPVendor.
    destruct (Parser.identification_code n1) as [id|]; [|discriminate].
    destruct (_transform_line_items _) as [items|]; [|discriminate].
    cbn. intros Hmap. inversion Hmap; subst payload. cbn. auto.
  - rewrite Hfirst. repeat split.
    + intros payload.
      destruct (_transform_line_items _) as [items|]; [|discriminate].
      cbn. intros Hmap. now inversion Hmap; subst payload.
    + intros e.
      destruct (_transform_line_items _) as [items|cause]; [discriminate|].
      cbn. intros Hmap. inversion Hmap. eauto.
Qed.

(** C9.  When the first "VN" loop carries no identification code, the mapper
    raises [TransformationError], caused by the rejection of [None] for
    [vendor_id]; the "UNKNOWN" default is not used.  An N1 segment of three
    elements is parsed into such a loop. *)
Theorem vendor_without_id_is_rejected (document : Parser.ParsedEDI850)
        (n1 : Parser.N1Loop) :
  find is_vendor (Parser.n1_loops document) = Some n1 ->
  Parser.identification_code n1 = None ->
  transform document
  = Err (transform_failed (ValidationError "ERPVendor" "vendor_id"))
  /\ forall seg,
       List.length seg = 3 ->
       Parser.identification_code (Parser.n1_of seg) = None.
Proof.
  intros Hfirst Hnone. split.
  - unfold transform, transform_body.
    rewrite extract_vendor_first, Hfirst, Hnone. reflexivity.
  - intros seg Hlen. unfold Parser.n1_of. cbn. now rewrite Hlen.
Qed.

End MapperFacts.

(** The sample order: 10 at 25.50 and 4 at 3.25 give the line totals 255 and
    13 and the order total 268, whatever its CTT segment says. *)
Lemma totals_are_computed_witness :
  Forall (MapperSpec.line_total_computed (builtins := Reference.builtins))
         (Mapper.line_items (Reference.mapped Reference.sample_850))
  /\ Mapper.total_amount (Reference.mapped Reference.sample_850)
     = Reference.round2
         (Reference.sum
            (map Mapper.total_price
                 (Mapper.line_items (Reference.mapped Reference.sample_850))))
  /\ Mapper.total_lines (Reference.mapped Reference.sample_850)
     = Z.of_nat (List.length
                   (Mapper.line_items (Reference.mapped Reference.sample_850)))
  /\ forall ctt,
       Mapper.transform (builtins := Reference.builtins)
         (MapperSpec.with_ctt (Reference.parsed Reference.sample_850) ctt)
       = Ok (Reference.mapped Reference.sample_850).
Proof.
  apply (totals_are_computed (builtins := Reference.builtins)
           (Reference.parsed Reference.sample_850)).
  vm_compute. reflexivity.
Defined.

(** A document without a vendor loop maps to the sentinel vendor. *)
Lemma vendor_resolution_witness :
  Mapper.vendor (Reference.mapped Reference.no_vendor_850)
  = MapperSpec.sentinel_vendor.
Proof.
  destruct (vendor_resolution (builtins := Reference.builtins)
              (Reference.parsed Reference.no_vendor_850)) as [_ [Hok _]].
  apply Hok. vm_compute. reflexivity.
Defined.

(** A document whose vendor loop has three elements is not mapped. *)
Lemma vendor_without_id_is_rejected_witness :
  Mapper.transform (builtins := Reference.builtins)
    (Reference.parsed Reference.short_vendor_850)
  = Err (Mapper.transform_failed (builtins := Reference.builtins)
           (ValidationError "ERPVendor" "vendor_id")).
Proof.
  apply (vendor_without_id_is_rejected (builtins := Reference.builtins)
           (Reference.parsed Reference.short_vendor_850)
           (Parser.n1_of ["N1"; "VN"; "Acme Supply"])).
  - vm_compute. reflexivity.
  - reflexivity.
Defined.

(** ** The business rules *)

Section ValidatorFacts.

Import Mapper ErpApi ErpApiSpec.

Lemma append_if_app (condition : bool) (message : string) (errors : list string) :
  append_if condition message errors
  = errors ++ (if condition then [message] else []).
Proof. destruct condition; cbn; [reflexivity | now rewrite app_nil_r]. Qed.

Lemma line_rules_app (items : list ERPLineItem) :
  forall idx errors,
    line_rules idx items errors = errors ++ line_rules idx items [].
Proof.
  induction items as [|item rest IH]; intros idx errors; cbn [line_rules].
  - now rewrite app_nil_r.
  - rewrite IH. rewrite (IH _ (append_if _ _ (append_if _ _ (append_if _ _ [])))).
    rewrite !append_if_app. cbn [app]. rewrite <- !app_assoc. reflexivity.
Qed.

(** The violations of one line item and of the items after it. *)
Lemma line_rules_cons (idx : Z) (item : ERPLineItem) (rest : list ERPLineItem) :
  line_rules idx (item :: rest) []
  = line_rules idx [item] [] ++ line_rules (idx + 1) rest [].
Proof. cbn [line_rules]. apply line_rules_app. Qed.



(** The rules are checked one after the other, none depending on the
    outcome of another. *)
Lemma validate_sections (payload : ERPPurchaseOrder) :
  _validate_business_rules payload
  = (if (total_amount payload <=? 0)%float then [total_amount_violation] else [])
    ++ (if (total_lines payload <? 1)%Z
        then ["Purchase order must contain at least one line item"] else [])
    ++ (if negb (Py.len (line_items payload) =? total_lines payload)%Z
        then [("Line items count mismatch: expected "
                 ++ Py.str_int (total_lines payload) ++ ", got "
                 ++ Py.str_int (Py.len (line_items payload)))%string]
        else [])
    ++ line_rules 1 (line_items payload) []
    ++ (if is_empty (vendor_name (vendor payload))
           || String.eqb (vendor_name (vendor payload)) "Unknown Vendor"
        then ["Valid vendor information is required"] else [])
    ++ (if is_empty (location_name (ship_to payload))
           || String.eqb (location_name (ship_to payload)) "Unknown Location"
        then ["Valid ship-to location is required"] else [])
    ++ (if is_empty (po_number payload)
           || String.eqb (Py.strip (po_number payload)) EmptyString
        then ["Purchase order number is required"] else []).
Proof.
  unfold _validate_business_rules.
  rewrite !append_if_app, line_rules_app.
  cbn [app]. rewrite <- !app_assoc. reflexivity.
Qed.



(** The validator never reads a SKU. *)
Lemma validate_ignores_skus (rename : ERPLineItem -> string)
      (payload : ERPPurchaseOrder) :
  _validate_business_rules (with_skus rename payload)
  = _validate_business_rules payload.
Proof.
  assert (Hlines : forall items idx errors,
             line_rules idx (map (fun item => with_sku (rename item) item) items) errors
             = line_rules idx items errors).
  { induction items as [|item rest IH]; intros idx errors; cbn; [reflexivity|].
    apply IH. }
  unfold _validate_business_rules, with_skus. cbn.
  unfold Py.len. rewrite length_map, Hlines. reflexivity.
Qed.

(** Without a simulated error, the mock endpoint accepts every payload that
    the validator accepts. *)
Lemma create_purchase_order_accepts (env : Environment)
      (payload : ERPPurchaseOrder) :
  _validate_business_rules payload = [] ->
  exists response,
    create_purchase_order env payload None = Ok response
    /\ success response = true.
Proof.
  intros Hvalid. unfold create_purchase_order. rewrite Hvalid.
  eexists. split; reflexivity.
Qed.

End ValidatorFacts.



(** ** The orchestrator *)

Section OrchestratorFacts.

Import Mapper Orchestrator OrchestratorSpec.

Context {builtins : PyBuiltins}.
Variable max_retries : Z.
Variable retry_delay : Q.
Variable create_purchase_order :
  Z -> ERPPurchaseOrder -> Result string ErpApi.ERPResponse.

Lemma delay_after_zero : delay_after retry_delay 0 = retry_delay.
Proof.
  unfold delay_after. destruct retry_delay as [num den].
  unfold Qmult, inject_Z. cbn [Qnum Qden Z.of_nat Z.pow].
  now rewrite Z.mul_1_r, Pos.mul_1_r.
Qed.

Lemma delay_after_succ (i : nat) :
  (delay_after retry_delay i * 2)%Q = delay_after retry_delay (S i).
Proof.
  unfold delay_after, Qmult, inject_Z. cbn [Qnum Qden].
  rewrite Nat2Z.inj_succ, Z.pow_succ_r by lia.
  rewrite !Pos.mul_1_r. f_equal. ring.
Qed.

Lemma entry_then_call (i n : nat) :
  entry_trace retry_delay i (S n) ++ [Call (Z.of_nat (S i))]
  = backoff_trace retry_delay (S i).
Proof.
  destruct i as [|j]; [reflexivity|].
  unfold entry_trace. cbn [backoff_trace]. now rewrite <- app_assoc.
Qed.

Lemma set_attempts_same (st : Run) :
  with_steps (set_attempts (attempts_of st)) (result st) = result st.
Proof.
  destruct st as [[job ok [p t v [ps pd pe a]] final] evs]. reflexivity.
Qed.

(** What one run of the retry loop leaves behind.  The loop is entered for
    attempt [i + 1] with [n] iterations left, [i + n] being the configured
    maximum. *)
Lemma retry_loop_spec (erp_payload : ERPPurchaseOrder) (n : nat) :
  forall (i : nat) (delay : Q) (last_error : option string) (st : Run),
    (n <> 0 -> max_retries = Z.of_nat (i + n)) ->
    (n <> 0 -> delay = delay_after retry_delay i) ->
    events st = entry_trace retry_delay i n ->
    attempts_of st = Z.of_nat i ->
    let range := map (fun k => (1 + Z.of_nat k)%Z) (seq i n) in
    let out := retry_loop max_retries create_purchase_order
                          erp_payload range delay last_error st in
    let k := attempts_of (snd out) in
    events (snd out) = backoff_trace retry_delay (Z.to_nat k)
    /\ result (snd out) = with_steps (set_attempts k) (result st)
    /\ match fst out with
       | Returned response =>
           create_purchase_order k erp_payload = Ok response
           /\ (Z.of_nat i < k <= Z.of_nat (i + n))%Z
           /\ forall j, (Z.of_nat i < j < k)%Z ->
                        exists e, create_purchase_order j erp_payload = Err e
       | Exhausted last =>
           k = Z.of_nat (i + n)
           /\ (forall j, (Z.of_nat i < j <= Z.of_nat (i + n))%Z ->
                         exists e, create_purchase_order j erp_payload = Err e)
           /\ match n with
              | 0 => last = last_error
              | S _ => exists e,
                  create_purchase_order (Z.of_nat (i + n)) erp_payload = Err e
                  /\ last = Some e
              end
       end.
Proof.
  induction n as [|n IH]; intros i delay last_error st Hmax Hdelay Hevents Hattempts.
  - cbn. fold (attempts_of st). rewrite Hattempts, Nat2Z.id, Nat.add_0_r.
    split; [exact Hevents|]. split.
    + rewrite <- Hattempts. symmetry. apply set_attempts_same.
    + split; [reflexivity|]. split; [|reflexivity]. intros j Hj. lia.
  - specialize (Hmax ltac:(discriminate)). specialize (Hdelay ltac:(discriminate)).
    cbn [seq map retry_loop].
    replace (1 + Z.of_nat i)%Z with (Z.of_nat (S i)) by lia.
    set (st1 := emit (Call (Z.of_nat (S i)))
                     (on_result (with_steps (set_attempts (Z.of_nat (S i)))) st)).
    assert (Hev1 : events st1 = backoff_trace retry_delay (S i)).
    { subst st1. cbn. rewrite Hevents. apply entry_then_call. }
    assert (Hat1 : attempts_of st1 = Z.of_nat (S i)) by reflexivity.
    assert (Hres1 : result st1
                    = with_steps (set_attempts (Z.of_nat (S i))) (result st))
      by reflexivity.
    destruct (create_purchase_order (Z.of_nat (S i)) erp_payload)
      as [response|e] eqn:Hcall.
    + cbn [fst snd]. rewrite Hat1, Nat2Z.id.
      split; [exact Hev1|]. split; [exact Hres1|].
      split; [exact Hcall|]. split; [lia|]. intros j Hj. lia.
    + destruct n as [|n].
      * (* the last attempt: no sleep, the loop is over *)
        assert (Hlast : (Z.of_nat (S i) <? max_retries)%Z = false).
        { apply Z.ltb_ge. lia. }
        rewrite Hlast. cbn [seq map retry_loop fst snd].
        rewrite Hat1, Nat2Z.id. replace (i + 1) with (S i) by lia.
        split; [exact Hev1|]. split; [exact Hres1|].
        split; [reflexivity|]. split; [|eauto].
        intros j Hj. assert (j = Z.of_nat (S i)) by lia. subst j. eauto.
      * assert (Hmore : (Z.of_nat (S i) <? max_retries)%Z = true).
        { apply Z.ltb_lt. lia. }
        rewrite Hmore.
        set (st2 := emit (Sleep delay) st1).
        specialize (IH (S i) (delay * 2)%Q (Some e) st2).
        replace (S i + S n) with (i + S (S n)) in IH by lia.
        cbn zeta in IH.
        destruct IH as [IHev [IHres IHexit]].
        -- intros _. exact Hmax.
        -- intros _. rewrite Hdelay. apply delay_after_succ.
        -- subst st2. cbn [emit events]. rewrite Hev1, Hdelay. reflexivity.
        -- exact Hat1.
        -- split; [exact IHev|]. split.
           ++ rewrite IHres. subst st2. cbn [emit result]. rewrite Hres1.
              reflexivity.
           ++ destruct (fst _) as [response|last].
              ** destruct IHexit as [Hok [Hk Hbefore]].
                 split; [exact Hok|]. split; [lia|].
                 intros j Hj.
                 destruct (Z.eq_dec j (Z.of_nat (S i))) as [->|Hne];
                   [eauto | apply Hbefore; lia].
              ** destruct IHexit as [Hk [Hall Hlast]].
                 split; [exact Hk|]. split; [|exact Hlast].
                 intros j Hj.
                 destruct (Z.eq_dec j (Z.of_nat (S i))) as [->|Hne];
                   [eauto | apply Hall; lia].
Qed.

(** One more attempt: a sleep of the doubled delay, then the call. *)
Lemma backoff_trace_next (n : nat) :
  backoff_trace retry_delay (S (S n))
  = backoff_trace retry_delay (S n)
      ++ [Sleep (delay_after retry_delay n); Call (Z.of_nat (S (S n)))].
Proof. reflexivity. Qed.



(** The state in which the submit stage is entered. *)
Lemma retry_from_start (erp_payload : ERPPurchaseOrder) (st : Run) :
  events st = [] ->
  attempts_of st = 0%Z ->
  let out := retry_loop max_retries create_purchase_order erp_payload
                        (py_range 1 (max_retries + 1)) retry_delay None st in
  let k := attempts_of (snd out) in
  events (snd out) = backoff_trace retry_delay (Z.to_nat k)
  /\ result (snd out) = with_steps (set_attempts k) (result st)
  /\ match fst out with
     | Returned response =>
         create_purchase_order k erp_payload = Ok response
         /\ (1 <= k <= max_retries)%Z
         /\ forall j, (1 <= j < k)%Z ->
                      exists e, create_purchase_order j erp_payload = Err e
     | Exhausted last =>
         k = Z.max 0 max_retries
         /\ (forall j, (1 <= j <= max_retries)%Z ->
                       exists e, create_purchase_order j erp_payload = Err e)
         /\ ((1 <= max_retries)%Z ->
             exists e, create_purchase_order max_retries erp_payload = Err e
                       /\ last = Some e)
     end.
Proof.
  intros Hevents Hattempts. unfold py_range.
  replace (max_retries + 1 - 1)%Z with max_retries by lia.
  pose proof (retry_loop_spec erp_payload (Z.to_nat max_retries) 0
                retry_delay None st) as Hspec.
  cbn zeta in Hspec. cbn [Nat.add] in Hspec.
  destruct Hspec as [Hev [Hres Hexit]].
  - intros Hpos. lia.
  - intros _. symmetry. apply delay_after_zero.
  - rewrite Hevents. now destruct (Z.to_nat max_retries).
  - exact Hattempts.
  - cbn zeta. split; [exact Hev|]. split; [exact Hres|].
    destruct (fst _) as [response|last].
    + destruct Hexit as [Hok [Hk Hbefore]]. split; [exact Hok|].
      split; [lia|]. intros j Hj. apply Hbefore. lia.
    + destruct Hexit as [Hk [Hall Hlast]]. split; [lia|]. split.
      * intros j Hj. apply Hall. lia.
      * intros Hpos. destruct (Z.to_nat max_retries) eqn:Hn; [lia|].
        rewrite <- Hn, Z2Nat.id in Hlast by lia. exact Hlast.
Qed.

(** The two ways in which a run that passed validation ends. *)
Lemma process_submits (job_id edi_content : string)
      (parsed : Parser.ParsedEDI850) (payload : ERPPurchaseOrder) :
  Parser.parse edi_content = Ok parsed ->
  Mapper.transform parsed = Ok payload ->
  _validate_payload payload = None ->
  let run := process_edi_file max_retries retry_delay create_purchase_order
                              job_id edi_content in
  let k := attempts_of run in
  events run = backoff_trace retry_delay (Z.to_nat k)
  /\ validate_status (validate (steps (result run))) = success_status
  /\ ((exists response,
         create_purchase_order k payload = Ok response
         /\ (1 <= k <= max_retries)%Z
         /\ (forall j, (1 <= j < k)%Z ->
                       exists e, create_purchase_order j payload = Err e)
         /\ post_to_erp (steps (result run))
            = {| post_status := success_status; post_data := Some response;
                 post_error := None; attempts := k |}
         /\ success (result run) = true
         /\ final_result (result run) = Some (Submitted response))
      \/ (k = Z.max 0 max_retries
          /\ (forall j, (1 <= j <= max_retries)%Z ->
                        exists e, create_purchase_order j payload = Err e)
          /\ success (result run) = false
          /\ exists last,
              post_to_erp (steps (result run))
              = {| post_status := failed; post_data := None;
                   post_error :=
                     Some (exhausted_message max_retries (str_last_error last));
                   attempts := k |}
              /\ ((1 <= max_retries)%Z ->
                  exists e, create_purchase_order max_retries payload = Err e
                            /\ last = Some e))).
Proof.
  intros Hparse Hmap Hvalid. unfold process_edi_file.
  rewrite Hparse, Hmap, Hvalid. unfold _post_to_erp_with_retry.
  match goal with
  | |- context [retry_loop _ _ _ _ _ _ ?st] =>
      pose proof (retry_from_start payload st eq_refl eq_refl) as Hloop
  end.
  cbn zeta in Hloop.
  destruct (retry_loop _ _ _ _ _ _ _) as [exit st'].
  cbn [fst snd] in Hloop. destruct Hloop as [Hev [Hres Hexit]].
  remember (attempts_of st') as k eqn:Hk.
  destruct st' as [r' evs']. cbn [result events] in Hev, Hres. subst r' evs'.
  destruct exit as [response|last]; cbn.
  - split; [reflexivity|]. split; [reflexivity|]. left. exists response.
    destruct Hexit as [Hok [Hrange Hbefore]]. auto 7.
  - split; [reflexivity|]. split; [reflexivity|]. right.
    destruct Hexit as [Hmax [Hall Hlast]].
    split; [exact Hmax|]. split; [exact Hall|]. split; [reflexivity|].
    exists last. split; [reflexivity | exact Hlast].
Qed.

Lemma backoff_trace_head (n : nat) :
  exists rest, backoff_trace retry_delay (S n) = Call 1 :: rest.
Proof.
  induction n as [|n [rest IH]]; [now exists []|].
  rewrite backoff_trace_next, IH. eexists. reflexivity.
Qed.

(** A run that passed validation calls the endpoint, provided the
    configuration allows one attempt. *)
Lemma validated_run_submits (job_id edi_content : string)
      (parsed : Parser.ParsedEDI850) (payload : ERPPurchaseOrder) :
  Parser.parse edi_content = Ok parsed ->
  Mapper.transform parsed = Ok payload ->
  _validate_payload payload = None ->
  (1 <= max_retries)%Z ->
  let run := process_edi_file max_retries retry_delay create_purchase_order
                              job_id edi_content in
  validate_status (validate (steps (result run))) = success_status
  /\ exists rest, events run = Call 1 :: rest.
Proof.
  intros Hparse Hmap Hvalid Hmax run.
  destruct (process_submits job_id edi_content parsed payload
              Hparse Hmap Hvalid) as [Hev [Hstatus Hend]].
  fold run in Hev, Hstatus, Hend. split; [exact Hstatus|].
  assert (Hk : (1 <= attempts_of run)%Z).
  { destruct Hend as [[response [_ [Hk _]]]|[Hk _]]; lia. }
  rewrite Hev. destruct (Z.to_nat (attempts_of run)) as [|n] eqn:Hn; [lia|].
  apply backoff_trace_head.
Qed.



(** C7.  When the parser raises its error, the run ends with the parse step
    [failed] carrying the parser's message, the three later steps still
    [pending], nothing sent downstream, and the success flag false. *)
Theorem parse_failure_stops_the_run (job_id edi_content : string)
        (e : Parser.EDIParsingError) :
  Parser.parse edi_content = Err e ->
  let run := process_edi_file max_retries retry_delay create_purchase_order
                              job_id edi_content in
  steps (result run)
  = {| parse := {| status := failed; data := None;
                   error := Some (Parser.parsing_message e) |};
       transform := {| status := pending; data := None; error := None |};
       validate := {| validate_status := pending; errors := None;
                      validate_error := None |};
       post_to_erp := {| post_status := pending; post_data := None;
                         post_error := None; attempts := 0 |} |}
  /\ success (result run) = false
  /\ final_result (result run) = None
  /\ events run = [].
Proof.
  intros Hparse run. subst run. unfold process_edi_file. rewrite Hparse.
  repeat split.
Qed.

End OrchestratorFacts.



(** The interchange without BEG segment stops the run at the parse step. *)
Lemma parse_failure_stops_the_run_witness :
  let run := Orchestrator.process_edi_file (builtins := Reference.builtins)
               3 2%Q Reference.endpoint "job-3" Reference.no_beg_850 in
  Orchestrator.steps (Orchestrator.result run)
  = {| Orchestrator.parse :=
         {| Orchestrator.status := Orchestrator.failed;
            Orchestrator.data := None;
            Orchestrator.error :=
              Some "Failed to parse EDI 850: BEG segment not found or incomplete" |};
       Orchestrator.transform :=
         {| Orchestrator.status := Orchestrator.pending;
            Orchestrator.data := None; Orchestrator.error := None |};
       Orchestrator.validate :=
         {| Orchestrator.validate_status := Orchestrator.pending;
            Orchestrator.errors := None; Orchestrator.validate_error := None |};
       Orchestrator.post_to_erp :=
         {| Orchestrator.post_status := Orchestrator.pending;
            Orchestrator.post_data := None; Orchestrator.post_error := None;
            Orchestrator.attempts := 0 |} |}
  /\ Orchestrator.success (Orchestrator.result run) = false
  /\ Orchestrator.final_result (Orchestrator.result run) = None
  /\ Orchestrator.events run = [].
Proof.
  apply (parse_failure_stops_the_run (builtins := Reference.builtins)
           3 2%Q Reference.endpoint "job-3" Reference.no_beg_850
           {| Parser.parsing_message :=
                "Failed to parse EDI 850: BEG segment not found or incomplete" |}).
  vm_compute. reflexivity.
Defined.

(** ** An empty SKU travels through the whole pipeline *)

(** C10.  A PO1 segment of exactly seven elements is kept by the parser and
    yields a line item with the empty product id; the mapper copies each
    product id to the SKU of its line; the validator's answer does not
    depend on any SKU; and a validated payload is submitted.  The sample
    order, whose second line has seven elements, is mapped to a payload with
    an empty SKU, passes validation and is posted to the endpoint. *)
Theorem empty_sku_reaches_submit :
  (forall seg,
      Parser.has_id "PO1" seg = true -> List.length seg = 7 ->
      Parser._parse_po1 [seg] = [Parser.po1_of seg]
      /\ Parser.product_id (Parser.po1_of seg) = EmptyString)
  /\ (forall (builtins : PyBuiltins) po1_items items,
         Mapper._transform_line_items po1_items = Ok items ->
         map Mapper.sku items = map Parser.product_id po1_items)
  /\ (forall rename payload,
         ErpApi._validate_business_rules (ErpApiSpec.with_skus rename payload)
         = ErpApi._validate_business_rules payload)
  /\ (forall (builtins : PyBuiltins) max_retries retry_delay endpoint
              job_id edi_content parsed payload,
         Parser.parse edi_content = Ok parsed ->
         Mapper.transform parsed = Ok payload ->
         Orchestrator._validate_payload payload = None ->
         (1 <= max_retries)%Z ->
         let run := Orchestrator.process_edi_file max_retries retry_delay endpoint
                                                  job_id edi_content in
         Orchestrator.validate_status
           (Orchestrator.validate (Orchestrator.steps (Orchestrator.result run)))
         = Orchestrator.success_status
         /\ exists rest, Orchestrator.events run = Orchestrator.Call 1 :: rest)
  /\ (let run := Orchestrator.process_edi_file (builtins := Reference.builtins)
                   3 2%Q Reference.endpoint "job-4" Reference.sample_850 in
      exists payload,
        Orchestrator.data
          (Orchestrator.transform (Orchestrator.steps (Orchestrator.result run)))
        = Some payload
        /\ map Mapper.sku (Mapper.line_items payload) = ["SKU-1"; EmptyString]
        /\ Orchestrator.validate_status
             (Orchestrator.validate (Orchestrator.steps (Orchestrator.result run)))
           = Orchestrator.success_status
        /\ Orchestrator.events run = [Orchestrator.Call 1]
        /\ Orchestrator.success (Orchestrator.result run) = true).
Proof.
  split; [|split; [|split; [|split]]].
  - intros seg Hid Hlen. unfold Parser._parse_po1, Parser._find_all_segments.
    cbn [filter]. rewrite Hid. cbn [Parser.collect]. rewrite Hlen.
    split; [reflexivity|]. unfold Parser.po1_of. cbn. now rewrite Hlen.
  - intros builtins po1_items items Hloop.
    apply line_items_loop_skus in Hloop. exact Hloop.
  - apply validate_ignores_skus.
  - intros builtins max_retries retry_delay endpoint job_id edi_content
           parsed payload. apply validated_run_submits.
  - exists (Reference.mapped Reference.sample_850). vm_compute. auto 6.
Qed.

(** The second line of the sample order. *)
Lemma empty_sku_reaches_submit_witness :
  Parser._parse_po1 [["PO1"; "2"; "4"; "EA"; "3.25"; ""; "BP"]]
  = [Parser.po1_of ["PO1"; "2"; "4"; "EA"; "3.25"; ""; "BP"]]
  /\ Parser.product_id (Parser.po1_of ["PO1"; "2"; "4"; "EA"; "3.25"; ""; "BP"])
     = EmptyString.
Proof.
  destruct empty_sku_reaches_submit as [Hpo1 _].
  apply Hpo1; reflexivity.
Defined.

(** * Further properties *)

(** ** White space and separators *)

Section StringFacts.

Lemma rstrip_cons (c : ascii) (s : string) :
  Py.rstrip (String c s)
  = match Py.rstrip s with
    | EmptyString => if Py.isspace c then EmptyString else String c EmptyString
    | kept => String c kept
    end.
Proof. reflexivity. Qed.

Lemma rstrip_cons_kept (c : ascii) (s : string) :
  Py.isspace c = false -> Py.rstrip (String c s) = String c (Py.rstrip s).
Proof.
  intros Hc. rewrite rstrip_cons, Hc. now destruct (Py.rstrip s).
Qed.

Lemma rstrip_idempotent (s : string) : Py.rstrip (Py.rstrip s) = Py.rstrip s.
Proof.
  induction s as [|c s IH]; [reflexivity|].
  rewrite rstrip_cons.
  destruct (Py.rstrip s) as [|k ks] eqn:Hs.
  - destruct (Py.isspace c) eqn:Hc; [reflexivity|].
    cbn. now rewrite Hc.
  - rewrite rstrip_cons, IH. reflexivity.
Qed.

Lemma lstrip_idempotent (s : string) : Py.lstrip (Py.lstrip s) = Py.lstrip s.
Proof.
  induction s as [|c s IH]; [reflexivity|].
  cbn. destruct (Py.isspace c) eqn:Hc; [exact IH|].
  cbn. now rewrite Hc.
Qed.

Lemma lstrip_rstrip (s : string) :
  Py.lstrip (Py.rstrip s) = Py.rstrip (Py.lstrip s).
Proof.
  induction s as [|c s IH]; [reflexivity|].
  destruct (Py.isspace c) eqn:Hc.
  - cbn [Py.lstrip]. rewrite Hc, <- IH, rstrip_cons, Hc.
    destruct (Py.rstrip s) as [|k ks]; [reflexivity|].
    cbn [Py.lstrip]. now rewrite Hc.
  - cbn [Py.lstrip]. rewrite Hc, rstrip_cons_kept by exact Hc.
    cbn [Py.lstrip]. now rewrite Hc.
Qed.

Lemma strip_idempotent (s : string) : Py.strip (Py.strip s) = Py.strip s.
Proof.
  unfold Py.strip.
  now rewrite lstrip_rstrip, rstrip_idempotent, lstrip_idempotent.
Qed.

(** [strip] seen as stripping the right end first. *)
Lemma strip_by_rstrip (s : string) : Py.strip s = Py.lstrip (Py.rstrip s).
Proof. unfold Py.strip. now rewrite lstrip_rstrip. Qed.

Lemma split_not_nil (sep : ascii) (s : string) :
  exists piece pieces, Py.split sep s = piece :: pieces.
Proof.
  induction s as [|c s [piece [pieces IH]]]; cbn; [eauto|].
  destruct (Ascii.eqb c sep); [eauto|]. rewrite IH. eauto.
Qed.

(** A string that [rstrip] empties is white space only. *)
Lemma rstrip_empty (sep : ascii) (s : string) :
  Py.isspace sep = false ->
  Py.rstrip s = EmptyString ->
  Py.lstrip s = EmptyString /\ Py.split sep s = [s].
Proof.
  intros Hsep. induction s as [|c s IH]; intros Hs; [now split|].
  rewrite rstrip_cons in Hs.
  destruct (Py.rstrip s) as [|k ks]; [|discriminate].
  destruct (Py.isspace c) eqn:Hc; [|discriminate].
  destruct (IH eq_refl) as [Hl Hsplit]. cbn. rewrite Hc, Hsplit.
  destruct (Ascii.eqb c sep) eqn:Heq; [|now split].
  apply Ascii.eqb_eq in Heq. congruence.
Qed.

(** Stripping the left end of a document changes its first piece only, and
    only by white space. *)
Lemma split_lstrip (sep : ascii) (s : string) :
  Py.isspace sep = false ->
  map Py.strip (Py.split sep (Py.lstrip s)) = map Py.strip (Py.split sep s).
Proof.
  intros Hsep. induction s as [|c s IH]; [reflexivity|].
  cbn [Py.lstrip]. destruct (Py.isspace c) eqn:Hc; [|reflexivity].
  rewrite IH. cbn [Py.split].
  destruct (Ascii.eqb c sep) eqn:Heq.
  { apply Ascii.eqb_eq in Heq. congruence. }
  destruct (split_not_nil sep s) as [piece [pieces ->]].
  cbn [map]. f_equal. unfold Py.strip. cbn [Py.lstrip]. now rewrite Hc.
Qed.

(** Stripping the right end changes its last piece only, and only by white
    space. *)
Lemma split_rstrip (sep : ascii) (s : string) :
  Py.isspace sep = false ->
  map Py.rstrip (Py.split sep (Py.rstrip s)) = map Py.rstrip (Py.split sep s).
Proof.
  intros Hsep. induction s as [|c s IH]; [reflexivity|].
  rewrite rstrip_cons.
  destruct (Py.rstrip s) as [|k ks] eqn:Hs.
  - destruct (rstrip_empty sep s Hsep Hs) as [_ Hone].
    cbn [Py.split]. rewrite Hone.
    destruct (Py.isspace c) eqn:Hc.
    + destruct (Ascii.eqb c sep) eqn:Heq.
      { apply Ascii.eqb_eq in Heq. congruence. }
      cbn [map]. now rewrite rstrip_cons, Hs, Hc.
    + cbn [Py.split]. destruct (Ascii.eqb c sep); cbn [map Py.split].
      * now rewrite Hs.
      * now rewrite !rstrip_cons, Hs, Hc.
  - remember (String k ks) as kept eqn:Hkept.
    cbn [Py.split]. destruct (Ascii.eqb c sep).
    + cbn [map]. now rewrite IH.
    + destruct (split_not_nil sep kept) as [p' [ps' Hk]].
      destruct (split_not_nil sep s) as [p [ps Hsplit]].
      rewrite Hk, Hsplit in *. cbn [map] in *.
      inversion IH as [[Hp Hps]].
      now rewrite !rstrip_cons, Hp.
Qed.

Lemma split_strip (sep : ascii) (s : string) :
  Py.isspace sep = false ->
  map Py.strip (Py.split sep (Py.strip s)) = map Py.strip (Py.split sep s).
Proof.
  intros Hsep. rewrite <- (split_lstrip sep s Hsep).
  unfold Py.strip at 2.
  rewrite !(map_ext _ _ strip_by_rstrip).
  rewrite <- !(map_map Py.rstrip Py.lstrip). f_equal.
  apply split_rstrip. exact Hsep.
Qed.

Lemma split_terminated (sep : ascii) (s : string) :
  Py.split sep (s ++ String sep EmptyString) = Py.split sep s ++ [EmptyString].
Proof.
  induction s as [|c s IH]; cbn.
  - now rewrite Ascii.eqb_refl.
  - rewrite IH. destruct (Ascii.eqb c sep); [reflexivity|].
    destruct (split_not_nil sep s) as [piece [pieces ->]]. reflexivity.
Qed.

Lemma occurs_lstrip (c : ascii) (s : string) :
  ParserMore.occurs c s = false -> ParserMore.occurs c (Py.lstrip s) = false.
Proof.
  induction s as [|first rest IH]; [reflexivity|].
  cbn [Py.lstrip]. destruct (Py.isspace first); [|tauto].
  cbn. intros H. apply orb_false_iff in H as [_ H]. now apply IH.
Qed.

Lemma occurs_rstrip (c : ascii) (s : string) :
  ParserMore.occurs c s = false -> ParserMore.occurs c (Py.rstrip s) = false.
Proof.
  induction s as [|first rest IH]; [reflexivity|].
  cbn [ParserMore.occurs]. intros H. apply orb_false_iff in H as [Hfirst Hrest].
  rewrite rstrip_cons. specialize (IH Hrest).
  destruct (Py.rstrip rest) as [|k ks].
  - destruct (Py.isspace first); cbn; [reflexivity | now rewrite Hfirst].
  - cbn [ParserMore.occurs] in *. now rewrite Hfirst, IH.
Qed.

Lemma occurs_strip (c : ascii) (s : string) :
  ParserMore.occurs c s = false -> ParserMore.occurs c (Py.strip s) = false.
Proof. intros H. now apply occurs_rstrip, occurs_lstrip. Qed.

(** No piece of a split holds the separator. *)
Lemma split_pieces_clean (sep : ascii) (s : string) :
  Forall (fun piece => ParserMore.occurs sep piece = false) (Py.split sep s).
Proof.
  induction s as [|c s IH]; cbn; [repeat constructor|].
  destruct (Ascii.eqb c sep) eqn:Heq; [now constructor|].
  destruct (Py.split sep s) as [|piece pieces]; [repeat constructor; cbn;
    now rewrite Heq|].
  inversion IH; subst. constructor; [|assumption].
  cbn. now rewrite Heq.
Qed.

(** A character absent from a string is absent from its pieces. *)
Lemma split_pieces_without (c sep : ascii) (s : string) :
  ParserMore.occurs c s = false ->
  Forall (fun piece => ParserMore.occurs c piece = false) (Py.split sep s).
Proof.
  induction s as [|first rest IH]; cbn; [repeat constructor|].
  intros H. apply orb_false_iff in H as [Hfirst Hrest]. specialize (IH Hrest).
  destruct (Ascii.eqb first sep); [now constructor|].
  destruct (Py.split sep rest) as [|piece pieces]; [repeat constructor; cbn;
    now rewrite Hfirst|].
  inversion IH; subst. constructor; [|assumption].
  cbn. now rewrite Hfirst.
Qed.

(** Joining the pieces with the separator gives the string back. *)
Lemma join_split (sep : ascii) (s : string) :
  ParserMore.join sep (Py.split sep s) = s.
Proof.
  induction s as [|c s IH]; [reflexivity|]. cbn [Py.split].
  destruct (split_not_nil sep s) as [piece [pieces Hsplit]].
  rewrite Hsplit in *.
  destruct (Ascii.eqb c sep) eqn:Heq.
  - apply Ascii.eqb_eq in Heq. subst c.
    change (ParserMore.join sep (EmptyString :: piece :: pieces))
      with (String sep (ParserMore.join sep (piece :: pieces))).
    now rewrite IH.
  - destruct pieces as [|next pieces]; cbn in *; now rewrite IH.
Qed.

End StringFacts.

(** ** More on the document parser *)

Section ParserMoreFacts.

Import Parser ParserSpec ParserMore.

Lemma tilde_not_space : Py.isspace segment_delimiter = false.
Proof. reflexivity. Qed.

(** The loop keeps the pieces that are not blank, stripped and split into
    elements. *)
Lemma split_loop_spec (segment_strings : list string) :
  forall segments,
    split_loop segment_strings segments
    = segments
        ++ map (Py.split element_delimiter)
               (filter (fun piece => negb (String.eqb piece EmptyString))
                       (map Py.strip segment_strings)).
Proof.
  induction segment_strings as [|piece rest IH]; intros segments; cbn.
  - now rewrite app_nil_r.
  - destruct (Py.strip piece) as [|c s]; cbn.
    + apply IH.
    + rewrite IH, <- app_assoc. reflexivity.
Qed.

Lemma split_segments_unstripped (edi_content : string) :
  _split_segments edi_content
  = split_loop (Py.split segment_delimiter edi_content) [].
Proof.
  unfold _split_segments. rewrite !split_loop_spec.
  now rewrite (split_strip _ _ tilde_not_space).
Qed.

(** X1.  Stripping the whole document before it is split changes nothing:
    each piece is stripped again.  So white space around a document and a
    segment terminator at its end are immaterial to the parser. *)
Theorem surrounding_space_and_terminator_ignored (edi_content : string) :
  _split_segments edi_content
  = split_loop (Py.split segment_delimiter edi_content) []
  /\ parse (edi_content ++ "~") = parse edi_content
  /\ parse (Py.strip edi_content) = parse edi_content.
Proof.
  split; [apply split_segments_unstripped|]. split.
  - unfold parse. f_equal. f_equal.
    rewrite !split_segments_unstripped, !split_loop_spec.
    change "~"%string with (String segment_delimiter EmptyString).
    rewrite split_terminated, map_app, filter_app. cbn.
    now rewrite app_nil_r.
  - unfold parse, _split_segments. now rewrite strip_idempotent.
Qed.

Lemma known_is_recognised (id : string) (seg : segment) :
  In id known_ids -> has_id id seg = true -> recognised seg = true.
Proof.
  intros Hin Hid. unfold recognised. apply existsb_exists.
  exists id. split; assumption.
Qed.

Lemma find_recognised (segments : list segment) (id : string) :
  In id known_ids ->
  _find_segment (filter recognised segments) id = _find_segment segments id.
Proof.
  intros Hin. apply find_filter_keep. intros seg. now apply known_is_recognised.
Qed.

Lemma find_all_recognised (segments : list segment) (id : string) :
  In id known_ids ->
  _find_all_segments (filter recognised segments) id
  = _find_all_segments segments id.
Proof.
  intros Hin. apply filter_filter_keep. intros seg. now apply known_is_recognised.
Qed.

(** X2.  Segments with any other identifier than the ten the parser looks
    for, the ST transaction header among them, have no influence on the
    outcome of [parse]. *)
Theorem unrecognised_segments_ignored (edi_content : string) :
  parse edi_content
  = map_err parse_failed
            (parse_segments (filter recognised (_split_segments edi_content))).
Proof.
  unfold parse. f_equal.
  unfold parse_segments, _parse_isa, _parse_gs, _parse_beg, _parse_ctt,
    _parse_ref, _parse_n1, _parse_po1, _parse_control_trailers, trailer.
  rewrite !find_recognised by (cbn; tauto).
  rewrite !find_all_recognised by (cbn; tauto).
  reflexivity.
Qed.

Lemma elem_trimmed (seg : segment) (i : nat) : trimmed (elem seg i).
Proof. apply strip_idempotent. Qed.

Lemma optional_elem_trimmed (condition : bool) (seg : segment) (i : nat) :
  Forall trimmed (optional (if condition then Some (elem seg i) else None)).
Proof.
  destruct condition; cbn; repeat constructor. apply elem_trimmed.
Qed.

Lemma Forall_flat_map {A B} (P : B -> Prop) (f : A -> list B) (l : list A) :
  (forall a, In a l -> Forall P (f a)) -> Forall P (flat_map f l).
Proof.
  intros Hf. induction l as [|a l IH]; cbn; [constructor|].
  apply Forall_app. split; [apply Hf; now left|].
  apply IH. intros b Hb. apply Hf. now right.
Qed.

Lemma trailer_when_complete (segments : list segment)
      (id key1 key2 : string) (control : list (string * string)) :
  trailer segments id key1 key2 control
  = if trailer_complete segments id
    then let seg := the_segment (_find_segment segments id) in
         Py.dict_set (Py.dict_set control key1 (elem seg 1)) key2 (elem seg 2)
    else control.
Proof.
  unfold trailer, trailer_complete.
  now destruct (_find_segment segments id) as [[|first rest]|].
Qed.

(** The control numbers, trailer by trailer. *)
Lemma control_trailers_entries (segments : list segment) :
  _parse_control_trailers segments
  = trailer_entries segments "SE" "se_segment_count" "se_control_number"
    ++ trailer_entries segments "GE" "ge_transaction_count" "ge_control_number"
    ++ trailer_entries segments "IEA" "iea_group_count" "iea_control_number".
Proof.
  unfold _parse_control_trailers, trailer_entries.
  rewrite !trailer_when_complete.
  destruct (trailer_complete segments "SE"), (trailer_complete segments "GE"),
    (trailer_complete segments "IEA"); reflexivity.
Qed.

(** X3.  Every value stored in a parsed document is free of white space at
    both ends. *)
Theorem captured_values_trimmed (edi_content : string)
        (document : ParsedEDI850) :
  parse edi_content = Ok document -> Forall trimmed (captured document).
Proof.
  unfold parse, parse_segments, bind.
  set (segments := _split_segments edi_content).
  unfold _parse_isa, _parse_gs, _parse_beg, _parse_ctt.
  destruct (absent_or_short _ 17); [discriminate|].
  destruct (absent_or_short _ 9); [discriminate|].
  destruct (absent_or_short _ 6); [discriminate|].
  destruct (absent_or_short _ 2); [discriminate|].
  cbn [map_err]. intros Hdoc. inversion Hdoc; subst document; clear Hdoc.
  unfold captured. cbn -[elem _parse_ref _parse_n1 _parse_po1
                          _parse_control_trailers flat_map optional].
  repeat (apply Forall_cons; [apply elem_trimmed|]).
  apply Forall_cons.
  { match goal with |- trimmed (if ?c then _ else _) => destruct c end;
      [apply elem_trimmed | reflexivity]. }
  unfold _parse_ref, _parse_n1, _parse_po1. rewrite !collect_filter.
  apply Forall_app. split.
  { apply Forall_flat_map. intros ref Hin.
    apply in_map_iff in Hin as [seg [<- _]].
    repeat constructor; apply elem_trimmed. }
  apply Forall_app. split.
  { apply Forall_flat_map. intros n1 Hin.
    apply in_map_iff in Hin as [seg [<- _]].
    unfold n1_of. cbn [entity_identifier name identification_code_qualifier
                       identification_code app].
    repeat (apply Forall_cons; [apply elem_trimmed|]).
    apply Forall_app. split; apply optional_elem_trimmed. }
  apply Forall_app. split.
  { apply Forall_flat_map. intros po1 Hin.
    apply in_map_iff in Hin as [seg [<- _]].
    unfold po1_of. cbn [line_number quantity unit_of_measure unit_price
                        product_id_qualifier product_id description app].
    repeat (apply Forall_cons; [apply elem_trimmed|]).
    apply Forall_cons.
    { match goal with |- trimmed (if ?c then _ else _) => destruct c end;
        [apply elem_trimmed | reflexivity]. }
    apply Forall_cons.
    { match goal with |- trimmed (if ?c then _ else _) => destruct c end;
        [apply elem_trimmed | reflexivity]. }
    apply optional_elem_trimmed. }
  apply Forall_cons; [apply elem_trimmed|].
  apply Forall_app. split.
  { apply optional_elem_trimmed. }
  rewrite control_trailers_entries. unfold trailer_entries.
  rewrite !map_app.
  apply Forall_app. split; [|apply Forall_app; split];
    match goal with
    | |- context [if ?c then _ else _] => destruct c
    end; cbn; repeat constructor; apply elem_trimmed.
Qed.


(** X4.  Every segment that the tokenizer yields has at least one element,
    none of its elements holds a delimiter, and joined again with the
    element delimiter they make a stripped, non-empty text. *)
Theorem segments_are_clean (edi_content : string) :
  Forall (fun seg =>
            seg <> []
            /\ join element_delimiter seg <> EmptyString
            /\ trimmed (join element_delimiter seg)
            /\ Forall (fun element =>
                         occurs element_delimiter element = false
                         /\ occurs segment_delimiter element = false) seg)
         (_split_segments edi_content).
Proof.
  unfold _split_segments. rewrite split_loop_spec. cbn [app].
  apply Forall_forall. intros seg Hseg.
  apply in_map_iff in Hseg as [text [<- Htext]].
  apply filter_In in Htext as [Htext Hfull].
  apply in_map_iff in Htext as [piece [<- Hpiece]].
  assert (Hclean : occurs segment_delimiter (Py.strip piece) = false).
  { apply occurs_strip.
    pose proof (split_pieces_clean segment_delimiter (Py.strip edi_content))
      as Hall.
    rewrite Forall_forall in Hall. now apply Hall. }
  rewrite join_split. repeat split.
  - destruct (split_not_nil element_delimiter (Py.strip piece))
      as [first [rest ->]]. discriminate.
  - intros Hempty. rewrite Hempty in Hfull. discriminate.
  - apply strip_idempotent.
  - pose proof (split_pieces_clean element_delimiter (Py.strip piece)) as Hstar.
    pose proof (split_pieces_without segment_delimiter element_delimiter
                  (Py.strip piece) Hclean) as Htilde.
    rewrite Forall_forall in *. intros element Hin. split; auto.
Qed.

(** X5.  The control numbers hold two entries for each of the trailers SE,
    GE and IEA whose first occurrence has at least three elements, in this
    order, and nothing else; no key occurs twice. *)
Theorem control_numbers_by_trailer (segments : list segment) :
  _parse_control_trailers segments
  = trailer_entries segments "SE" "se_segment_count" "se_control_number"
    ++ trailer_entries segments "GE" "ge_transaction_count" "ge_control_number"
    ++ trailer_entries segments "IEA" "iea_group_count" "iea_control_number"
  /\ NoDup (map fst (_parse_control_trailers segments)).
Proof.
  split; [apply control_trailers_entries|].
  rewrite control_trailers_entries. unfold trailer_entries.
  destruct (trailer_complete segments "SE"), (trailer_complete segments "GE"),
    (trailer_complete segments "IEA"); cbn;
    repeat (constructor; [cbn; intuition discriminate|]); constructor.
Qed.

End ParserMoreFacts.

(** ** More on the schema mapper *)

Section MapperMoreFacts.

Import Mapper MapperSpec MapperMore.

Context {builtins : PyBuiltins}.

(** X6.  [_format_date] rewrites a text of eight characters into ten, with
    dashes after the fourth and the sixth, and leaves any other text as it
    is; so formatting twice is formatting once, and dropping the dashes
    gives the eight characters back. *)
Theorem format_date_shape (edi_date : string) :
  _format_date (_format_date edi_date) = _format_date edi_date
  /\ (String.length edi_date = 8 ->
      String.length (_format_date edi_date) = 10
      /\ String.get 4 (_format_date edi_date) = Some "-"%char
      /\ String.get 7 (_format_date edi_date) = Some "-"%char
      /\ without_dashes (_format_date edi_date) = edi_date)
  /\ (String.length edi_date <> 8 -> _format_date edi_date = edi_date).
Proof.
  assert (Height : String.length edi_date = 8 ->
                   String.length (_format_date edi_date) = 10
                   /\ String.get 4 (_format_date edi_date) = Some "-"%char
                   /\ String.get 7 (_format_date edi_date) = Some "-"%char
                   /\ without_dashes (_format_date edi_date) = edi_date).
  { intros Hlen.
    do 9 (destruct edi_date as [|? edi_date]; try discriminate).
    repeat split. }
  assert (Hother : String.length edi_date <> 8 -> _format_date edi_date = edi_date).
  { intros Hlen. unfold _format_date.
    destruct (Nat.eqb_spec (String.length edi_date) 8); [contradiction|reflexivity]. }
  split; [|split; assumption].
  destruct (Nat.eq_dec (String.length edi_date) 8) as [Hlen|Hlen].
  - destruct (Height Hlen) as [Hten _].
    unfold _format_date at 1. now rewrite Hten.
  - now rewrite (Hother Hlen), (Hother Hlen).
Qed.

(** X7.  [_map_po_type] leaves every code outside its table unchanged, and
    mapping a label again changes nothing: no label is itself a code. *)
Theorem map_po_type_stable (po_type_code : string) :
  _map_po_type (_map_po_type po_type_code) = _map_po_type po_type_code
  /\ (~ In po_type_code (map fst PO_TYPE_MAP) ->
      _map_po_type po_type_code = po_type_code).
Proof.
  unfold _map_po_type, PO_TYPE_MAP. cbn [Py.dict_get map fst In].
  split.
  - repeat match goal with
           | |- context [String.eqb ?k po_type_code] =>
               destruct (String.eqb_spec k po_type_code) as [<-|?];
               [reflexivity|]
           end.
    repeat match goal with
           | H : ?k <> po_type_code |- context [String.eqb ?k po_type_code] =>
               destruct (String.eqb_spec k po_type_code); [contradiction|]
           end.
    reflexivity.
  - intros Hout.
    repeat match goal with
           | |- context [String.eqb ?k po_type_code] =>
               destruct (String.eqb_spec k po_type_code) as [Heq|?];
               [exfalso; apply Hout; rewrite Heq; tauto|]
           end.
    reflexivity.
Qed.

Lemma extract_ship_to_first (n1_loops : list Parser.N1Loop) :
  _extract_ship_to n1_loops = resolved_ship_to n1_loops.
Proof.
  unfold resolved_ship_to.
  induction n1_loops as [|n1 rest IH]; cbn; [reflexivity|].
  unfold is_ship_to at 1.
  destruct (String.eqb (Parser.entity_identifier n1) "ST"); [reflexivity | exact IH].
Qed.

(** X8.  The ship-to of a mapped payload comes from the first name/address
    loop whose entity-role code is "ST", its identification code carried as
    it is, absent when the loop has none; without such a loop it is the
    location "Unknown Location" without id.  A ship-to loop never makes the
    mapper fail. *)
Theorem ship_to_resolution (document : Parser.ParsedEDI850)
        (payload : ERPPurchaseOrder) :
  transform document = Ok payload ->
  ship_to payload = resolved_ship_to (Parser.n1_loops document).
Proof.
  unfold transform, transform_body, bind.
  destruct (_extract_vendor _) as [v|]; [|discriminate].
  destruct (_transform_line_items _) as [items|]; [|discriminate].
  cbn. intros Hmap. inversion Hmap; subst payload. cbn.
  apply extract_ship_to_first.
Qed.

Lemma line_items_loop_succeeds (po1_items : list Parser.PO1LineItem) :
  forall erp_items,
    is_some_result (line_items_loop po1_items erp_items)
    = forallb line_convertible po1_items.
Proof.
  induction po1_items as [|po1 rest IH]; intros erp_items; [reflexivity|].
  cbn [line_items_loop forallb]. unfold bind, to_float, to_int, line_convertible, get.
  destruct (py_float (Parser.quantity po1)); [|reflexivity].
  destruct (py_float (Parser.unit_price po1)); [|reflexivity].
  destruct (py_int (Parser.line_number po1)); [|reflexivity].
  cbn. apply IH.
Qed.

(** X9.  The mapper returns a payload exactly when the first vendor loop,
    if there is one, has an identification code and the quantity, unit
    price and line number of every line are accepted by [float] and
    [int]. *)
Theorem transform_succeeds_iff (document : Parser.ParsedEDI850) :
  is_some_result (transform document)
  = vendor_identified (Parser.n1_loops document)
    && forallb line_convertible (Parser.po1_line_items document).
Proof.
  unfold transform, transform_body, bind, vendor_identified.
  rewrite extract_vendor_first. unfold new_ERPVendor.
  destruct (find is_vendor _) as [n1|].
  - destruct (Parser.identification_code n1); [|reflexivity].
    rewrite <- (line_items_loop_succeeds _ []). unfold _transform_line_items.
    now destruct (line_items_loop _ _).
  - rewrite <- (line_items_loop_succeeds _ []). unfold _transform_line_items.
    now destruct (line_items_loop _ _).
Qed.

Lemma line_items_loop_corresponds (po1_items : list Parser.PO1LineItem) :
  forall done erp_items items,
    Forall2 line_corresponds done erp_items ->
    line_items_loop po1_items erp_items = Ok items ->
    Forall2 line_corresponds (done ++ po1_items) items.
Proof.
  induction po1_items as [|po1 rest IH]; intros done erp_items items Hdone Hloop.
  - cbn in Hloop. inversion Hloop; subst. now rewrite app_nil_r.
  - cbn [line_items_loop] in Hloop. unfold bind, to_float, to_int, get in Hloop.
    destruct (py_float (Parser.quantity po1)) as [q|] eqn:Hq; [|discriminate].
    destruct (py_float (Parser.unit_price po1)) as [up|] eqn:Hup; [|discriminate].
    destruct (py_int (Parser.line_number po1)) as [n|] eqn:Hn; [|discriminate].
    apply (IH (done ++ [po1])) in Hloop.
    + now rewrite <- app_assoc in Hloop.
    + apply Forall2_app; [exact Hdone|].
      constructor; [|constructor]. unfold line_corresponds. cbn. auto 7.
Qed.

(** X10.  The line items of a mapped payload are the parsed lines, one for
    one and in the same order: the numbers are the conversions of the three
    numeric texts, and the product id, the description and the unit of
    measure are carried as they are (an empty unit stays empty, "EA" is
    never put in). *)
Theorem line_items_correspond (document : Parser.ParsedEDI850)
        (payload : ERPPurchaseOrder) :
  transform document = Ok payload ->
  Forall2 line_corresponds (Parser.po1_line_items document) (line_items payload).
Proof.
  unfold transform, transform_body, bind.
  destruct (_extract_vendor _) as [v|]; [|discriminate].
  destruct (_transform_line_items _) as [items|] eqn:Hitems; [|discriminate].
  cbn. intros Hmap. inversion Hmap; subst payload. cbn.
  apply (line_items_loop_corresponds _ [] [] items); [constructor | exact Hitems].
Qed.

Lemma lookup_dict_set (d : list (string * string)) (key value other : string) :
  lookup (Py.dict_set d key value) other
  = if String.eqb key other then Some value else lookup d other.
Proof.
  induction d as [|[k v] rest IH]; cbn; [reflexivity|].
  destruct (String.eqb_spec k key) as [->|Hne]; cbn.
  - now destruct (String.eqb key other).
  - rewrite IH. destruct (String.eqb_spec k other) as [->|?]; [|reflexivity].
    destruct (String.eqb_spec key other); [congruence | reflexivity].
Qed.

Lemma keys_dict_set (d : list (string * string)) (key value : string) :
  map fst (Py.dict_set d key value)
  = if existsb (String.eqb key) (map fst d) then map fst d
    else map fst d ++ [key].
Proof.
  induction d as [|[k v] rest IH]; cbn; [reflexivity|].
  rewrite (String.eqb_sym key k).
  destruct (String.eqb k key); cbn; [reflexivity|].
  rewrite IH. now destruct (existsb _ _).
Qed.

Lemma dict_set_keeps_keys_distinct (d : list (string * string)) (key value : string) :
  NoDup (map fst d) -> NoDup (map fst (Py.dict_set d key value)).
Proof.
  intros Hd. rewrite keys_dict_set.
  destruct (existsb _ _) eqn:Hex; [exact Hd|].
  apply NoDup_app; [exact Hd | repeat constructor; intros [] |].
  intros k Hin [Heq|[]]. subst k.
  assert (existsb (String.eqb key) (map fst d) = true); [|congruence].
  apply existsb_exists. exists key. split; [exact Hin | apply String.eqb_refl].
Qed.

Lemma dict_set_not_nil (d : list (string * string)) (key value : string) :
  Py.dict_set d key value <> [].
Proof.
  destruct d as [|[k v] d]; cbn; [discriminate|].
  destruct (String.eqb k key); discriminate.
Qed.

Lemma find_app {A} (p : A -> bool) (l l' : list A) :
  find p (l ++ l')
  = match find p l with
    | Some x => Some x
    | None => find p l'
    end.
Proof.
  induction l as [|x l IH]; cbn; [reflexivity|].
  now destruct (p x).
Qed.

Lemma references_loop_spec (ref_segments : list Parser.REFSegment) :
  forall references,
    NoDup (map fst references) ->
    let result := references_loop ref_segments references in
    NoDup (map fst result)
    /\ (ref_segments <> [] -> result <> [])
    /\ forall key,
        lookup result key
        = match last_reference ref_segments key with
          | Some number => Some number
          | None => lookup references key
          end.
Proof.
  induction ref_segments as [|ref rest IH]; intros references Hdistinct.
  - cbn. repeat split; [exact Hdistinct | congruence].
  - cbn [references_loop]. unfold get.
    fold (reference_key ref).
    destruct (IH (Py.dict_set references (reference_key ref)
                              (Parser.reference_number ref)))
      as [Hnodup [Hfull Hlookup]].
    { now apply dict_set_keeps_keys_distinct. }
    split; [exact Hnodup|]. split.
    + intros _. destruct rest as [|next rest]; [|apply Hfull; discriminate].
      apply dict_set_not_nil.
    + intros key. rewrite Hlookup, lookup_dict_set.
      unfold last_reference. cbn [rev]. rewrite find_app. cbn [find].
      destruct (find _ (rev rest)); [reflexivity|].
      now destruct (String.eqb (reference_key ref) key).
Qed.

(** X11.  The reference numbers are absent exactly when the document has no
    reference.  Otherwise they form a dictionary without repeated key in
    which each key holds the number of the last reference stored under it:
    of two references with the same key the later one wins. *)
Theorem reference_numbers_last_wins (ref_segments : list Parser.REFSegment) :
  (_build_reference_numbers ref_segments = None <-> ref_segments = [])
  /\ forall references,
      _build_reference_numbers ref_segments = Some references ->
      NoDup (map fst references)
      /\ forall key, lookup references key = last_reference ref_segments key.
Proof.
  destruct (references_loop_spec ref_segments [] (NoDup_nil _))
    as [Hnodup [Hfull Hlookup]].
  unfold _build_reference_numbers.
  destruct (references_loop ref_segments []) as [|entry entries] eqn:Hloop.
  - split; [|discriminate]. split; [|reflexivity]. intros _.
    destruct ref_segments as [|ref rest]; [reflexivity|].
    exfalso. apply Hfull; [discriminate | reflexivity].
  - split.
    + split; [discriminate|]. intros ->. discriminate.
    + intros references Hsome. inversion Hsome; subst references.
      split; [exact Hnodup|]. intros key. rewrite Hlookup.
      now destruct (last_reference ref_segments key).
Qed.

End MapperMoreFacts.

(** ** More on the business rules and the mock endpoint *)

Section ErpApiMoreFacts.

Import Mapper ErpApi ErpApiSpec ErpApiMore.


(** X14.  Called without a simulated error, the mock endpoint accepts
    exactly the payloads without violation.  An acceptance carries the id
    ERP-<po number>-<random number>; a rejection is a 400 with the code
    VALIDATION_ERROR and the validator's list. *)
Theorem endpoint_accepts_iff_valid (env : Environment)
        (payload : ERPPurchaseOrder) :
  match create_purchase_order env payload None with
  | Ok response =>
      _validate_business_rules payload = []
      /\ success response = true
      /\ transaction_id response = uuid4 env
      /\ erp_po_id response
         = Some ("ERP-" ++ po_number payload ++ "-"
                   ++ Py.str_int (randint env))%string
  | Err e =>
      _validate_business_rules payload <> []
      /\ status_code e = 400%Z
      /\ error_code e = "VALIDATION_ERROR"
      /\ detail_transaction_id e = uuid4 env
      /\ error_details e
         = JDict [("errors", JList (map JStr (_validate_business_rules payload)))]
  end.
Proof.
  unfold create_purchase_order.
  destruct (_validate_business_rules payload) as [|violation violations].
  - cbn. repeat split; reflexivity.
  - split; [discriminate|]. cbn. repeat split; reflexivity.
Qed.

(** X15.  With a non-empty simulated error type the mock endpoint raises
    whatever the payload: the status is 400, 409, 422 or 504, the
    transaction id is the one drawn for the call, and a type outside the
    four known ones gives the "validation" scenario.  The empty type counts
    as no simulation. *)
Theorem simulated_error_always_raises (env : Environment)
        (payload : ERPPurchaseOrder) (error_type : string) :
  error_type <> EmptyString ->
  (exists e,
      create_purchase_order env payload (Some error_type) = Err e
      /\ In (status_code e) simulated_status_codes
      /\ detail_transaction_id e = uuid4 env
      /\ (~ In error_type simulated_error_types ->
          create_purchase_order env payload (Some error_type)
          = create_purchase_order env payload (Some "validation")))
  /\ create_purchase_order env payload (Some EmptyString)
     = create_purchase_order env payload None.
Proof.
  intros Hfull. split; [|reflexivity].
  destruct error_type as [|c rest]; [contradiction|].
  remember (String c rest) as error_type eqn:Htype.
  assert (Hcall : create_purchase_order env payload (Some error_type)
                  = Err (_simulate_error error_type (uuid4 env)
                                         (utcnow env ++ "Z") payload)).
  { subst error_type. reflexivity. }
  rewrite Hcall. eexists. split; [reflexivity|].
  unfold simulated_status_codes, simulated_error_types, _simulate_error.
  destruct (String.eqb_spec error_type "validation") as [Hv|Hv].
  { split; [cbn; auto 6|]. split; [reflexivity|].
    intros Hout. exfalso. apply Hout. cbn. auto 6. }
  destruct (String.eqb_spec error_type "duplicate") as [Hd|Hd].
  { split; [cbn; auto 6|]. split; [reflexivity|].
    intros Hout. exfalso. apply Hout. cbn. auto 6. }
  destruct (String.eqb_spec error_type "inventory") as [Hi|Hi].
  { split; [cbn; auto 6|]. split; [reflexivity|].
    intros Hout. exfalso. apply Hout. cbn. auto 6. }
  destruct (String.eqb_spec error_type "timeout") as [Ht|Ht].
  { split; [cbn; auto 6|]. split; [reflexivity|].
    intros Hout. exfalso. apply Hout. cbn. auto 6. }
  split; [cbn; auto 6|]. split; [reflexivity|]. intros _. reflexivity.
Qed.

Section OnMapperOutput.

Context {builtins : PyBuiltins}.

Lemma line_items_loop_length (po1_items : list Parser.PO1LineItem) :
  forall erp_items items,
    line_items_loop po1_items erp_items = Ok items ->
    List.length items = List.length erp_items + List.length po1_items.
Proof.
  induction po1_items as [|po1 rest IH]; intros erp_items items Hloop.
  - cbn in Hloop. inversion Hloop; subst. cbn. lia.
  - cbn [line_items_loop] in Hloop. unfold bind in Hloop.
    destruct (to_float _) as [q|]; [|discriminate].
    destruct (to_float _) as [up|]; [|discriminate].
    destruct (to_int _) as [n|]; [|discriminate].
    apply IH in Hloop. rewrite Hloop, length_app. cbn. lia.
Qed.

(** X13.  On a payload that comes out of the mapper the count check, rule
    3, never reports anything, since the declared count is computed from
    the list it is compared with; the validator's answer is the violations
    of the six other rules.  An order without line items is always
    reported by rule 2. *)
Theorem count_check_is_idle_after_mapping (document : Parser.ParsedEDI850)
        (payload : ERPPurchaseOrder) :
  transform document = Ok payload ->
  _validate_business_rules payload = violations_without_count_check payload
  /\ (Parser.po1_line_items document = [] ->
      In "Purchase order must contain at least one line item"
         (_validate_business_rules payload)).
Proof.
  intros Hmap.
  assert (Hcount : total_lines payload = Py.len (line_items payload)
                   /\ List.length (line_items payload)
                      = List.length (Parser.po1_line_items document)).
  { unfold transform, transform_body, bind in Hmap.
    destruct (_extract_vendor _) as [v|]; [|discriminate].
    destruct (_transform_line_items _) as [items|] eqn:Hitems; [|discriminate].
    cbn in Hmap. inversion Hmap; subst payload. cbn. split; [reflexivity|].
    apply line_items_loop_length in Hitems. exact Hitems. }
  destruct Hcount as [Htotal Hlength].
  assert (Hsame : _validate_business_rules payload
                  = violations_without_count_check payload).
  { rewrite validate_sections. unfold violations_without_count_check.
    rewrite Htotal, Z.eqb_refl. reflexivity. }
  split; [exact Hsame|].
  intros Hnone. rewrite Hsame. unfold violations_without_count_check.
  rewrite Htotal. unfold Py.len. rewrite Hlength, Hnone. cbn [List.length].
  apply in_or_app. right. apply in_or_app. left. cbn. now left.
Qed.

End OnMapperOutput.

End ErpApiMoreFacts.

(** ** More on the orchestrator *)

Section OrchestratorMoreFacts.

Import Mapper Orchestrator OrchestratorSpec OrchestratorMore.

Context {builtins : PyBuiltins}.
Variable max_retries : Z.
Variable retry_delay : Q.
Variable create_purchase_order :
  Z -> ERPPurchaseOrder -> Result string ErpApi.ERPResponse.

(** The whole record of a run that passed validation. *)
Lemma submit_stage_record (job_id edi_content : string)
      (parsed : Parser.ParsedEDI850) (payload : ERPPurchaseOrder) :
  Parser.parse edi_content = Ok parsed ->
  Mapper.transform parsed = Ok payload ->
  _validate_payload payload = None ->
  let run := process_edi_file max_retries retry_delay create_purchase_order
                              job_id edi_content in
  exists k,
    events run = backoff_trace retry_delay (Z.to_nat k)
    /\ ((exists response,
            result run
            = submit_record job_id parsed payload true
                {| post_status := success_status; post_data := Some response;
                   post_error := None; attempts := k |}
                (Some (Submitted response))
            /\ create_purchase_order k payload = Ok response
            /\ (1 <= k <= max_retries)%Z
            /\ forall j, (1 <= j < k)%Z ->
                         exists e, create_purchase_order j payload = Err e)
        \/ (exists last,
              result run
              = submit_record job_id parsed payload false
                  {| post_status := failed; post_data := None;
                     post_error :=
                       Some (exhausted_message max_retries (str_last_error last));
                     attempts := k |}
                  None
              /\ k = Z.max 0 max_retries
              /\ forall j, (1 <= j <= max_retries)%Z ->
                           exists e, create_purchase_order j payload = Err e)).
Proof.
  intros Hparse Hmap Hvalid. unfold process_edi_file.
  rewrite Hparse, Hmap, Hvalid. unfold _post_to_erp_with_retry.
  match goal with
  | |- context [retry_loop _ _ _ _ _ _ ?st] =>
      pose proof (retry_from_start max_retries retry_delay create_purchase_order
                                   payload st eq_refl eq_refl) as Hloop
  end.
  cbn zeta in Hloop.
  destruct (retry_loop _ _ _ _ _ _ _) as [exit st'].
  cbn [fst snd] in Hloop. destruct Hloop as [Hev [Hres Hexit]].
  remember (attempts_of st') as k eqn:Hk.
  destruct st' as [r' evs']. cbn [result events] in Hev, Hres. subst r' evs'.
  exists k. destruct exit as [response|last]; cbn.
  - split; [reflexivity|]. left. exists response.
    destruct Hexit as [Hok [Hrange Hbefore]]. auto.
  - split; [reflexivity|]. right. exists last.
    destruct Hexit as [Hmax [Hall _]]. auto.
Qed.

(** X16.  When the mapper raises its error, the run ends with the parse
    step [success] holding the parsed document, the transform step [failed]
    with the mapper's message, the two later steps [pending], nothing sent
    downstream, and the success flag false. *)
Theorem transform_failure_stops_the_run (job_id edi_content : string)
        (parsed : Parser.ParsedEDI850) (e : TransformationError) :
  Parser.parse edi_content = Ok parsed ->
  Mapper.transform parsed = Err e ->
  process_edi_file max_retries retry_delay create_purchase_order
                   job_id edi_content
  = {| result :=
         {| job_id := job_id;
            success := false;
            steps :=
              {| parse := parsed_step parsed;
                 transform := {| status := failed; data := None;
                                 error := Some (transformation_message e) |};
                 validate := {| validate_status := pending; errors := None;
                                validate_error := None |};
                 post_to_erp := untouched_post |};
            final_result := None |};
       events := [] |}.
Proof.
  intros Hparse Hmap. unfold process_edi_file. now rewrite Hparse, Hmap.
Qed.

(** X17.  When the validator reports violations, the run ends with the
    validate step [failed] holding the list, the submit step [pending] with
    no attempt made and nothing sent downstream, the success flag false,
    and a final result that carries the list and its length in the error
    text. *)
Theorem validation_rejection_stops_the_run (job_id edi_content : string)
        (parsed : Parser.ParsedEDI850) (payload : ERPPurchaseOrder)
        (violations : list string) :
  Parser.parse edi_content = Ok parsed ->
  Mapper.transform parsed = Ok payload ->
  _validate_payload payload = Some violations ->
  process_edi_file max_retries retry_delay create_purchase_order
                   job_id edi_content
  = {| result :=
         {| job_id := job_id;
            success := false;
            steps :=
              {| parse := parsed_step parsed;
                 transform := mapped_step payload;
                 validate := {| validate_status := failed;
                                errors := Some violations;
                                validate_error := None |};
                 post_to_erp := untouched_post |};
            final_result :=
              Some (Rejected (rejection_message violations) violations) |};
       events := [] |}
  /\ violations = ErpApi._validate_business_rules payload
  /\ violations <> [].
Proof.
  intros Hparse Hmap Hvalid. split.
  - unfold process_edi_file. now rewrite Hparse, Hmap, Hvalid.
  - unfold _validate_payload in Hvalid.
    destruct (ErpApi._validate_business_rules payload) as [|v vs];
      [discriminate|].
    inversion Hvalid. split; [reflexivity | discriminate].
Qed.

(** X18.  In every run the stages succeed in order up to the first that
    fails, exactly one step is [failed] unless all four succeeded, the
    steps after the failed one are [pending], and the success flag says
    whether all four succeeded.  The attempt count lies between 0 and the
    configured maximum, and a run that does not pass validation makes no
    attempt. *)
Theorem stages_progress_in_order (job_id edi_content : string) :
  let run := process_edi_file max_retries retry_delay create_purchase_order
                              job_id edi_content in
  exists n,
    n <= 4
    /\ statuses (result run) = progress n
    /\ success (result run) = (n =? 4)
    /\ (0 <= attempts_of run <= Z.max 0 max_retries)%Z
    /\ (3 <= n \/ (attempts_of run = 0%Z /\ events run = [])).
Proof.
  intros run. subst run.
  destruct (Parser.parse edi_content) as [parsed|e] eqn:Hparse.
  2: { exists 0. unfold process_edi_file. rewrite Hparse. cbn.
       repeat split; first [lia | right; split; reflexivity | left; lia]. }
  destruct (Mapper.transform parsed) as [payload|e] eqn:Hmap.
  2: { exists 1. unfold process_edi_file. rewrite Hparse, Hmap. cbn.
       repeat split; first [lia | right; split; reflexivity | left; lia]. }
  destruct (_validate_payload payload) as [violations|] eqn:Hvalid.
  { exists 2. unfold process_edi_file. rewrite Hparse, Hmap, Hvalid. cbn.
    repeat split; first [lia | right; split; reflexivity | left; lia]. }
  destruct (submit_stage_record job_id edi_content parsed payload
              Hparse Hmap Hvalid) as [k [Hev Hend]].
  destruct Hend as [[response [Hres [_ [Hk _]]]]|[last [Hres [Hk _]]]].
  - exists 4. unfold attempts_of, statuses. rewrite Hres. cbn.
    repeat split; first [lia | right; split; reflexivity | left; lia].
  - exists 3. unfold attempts_of, statuses. rewrite Hres. cbn.
    repeat split; first [lia | right; split; reflexivity | left; lia].
Qed.

End OrchestratorMoreFacts.

Section BackoffFacts.

Import Mapper Orchestrator OrchestratorSpec OrchestratorMore.

Context {builtins : PyBuiltins}.
Variable max_retries : Z.
Variable retry_delay : Q.
Variable create_purchase_order :
  Z -> ERPPurchaseOrder -> Result string ErpApi.ERPResponse.

Lemma total_sleep_app (evs evs' : list Event) :
  (total_sleep (evs ++ evs') == total_sleep evs + total_sleep evs')%Q.
Proof.
  induction evs as [|[attempt|seconds] evs IH]; cbn.
  - ring.
  - exact IH.
  - rewrite IH. ring.
Qed.

Lemma count_calls_app (evs evs' : list Event) :
  count_calls (evs ++ evs') = count_calls evs + count_calls evs'.
Proof.
  induction evs as [|[attempt|seconds] evs IH]; cbn; [reflexivity| |exact IH].
  now rewrite IH.
Qed.

Lemma backoff_trace_calls (n : nat) :
  count_calls (backoff_trace retry_delay n) = n.
Proof.
  induction n as [|n IH]; [reflexivity|].
  destruct n as [|n]; [reflexivity|].
  rewrite backoff_trace_next, count_calls_app, IH. cbn. lia.
Qed.

Lemma backoff_trace_sleep (n : nat) :
  (total_sleep (backoff_trace retry_delay (S n))
   == retry_delay * (inject_Z (2 ^ Z.of_nat n) - 1))%Q.
Proof.
  induction n as [|n IH].
  - cbn. ring.
  - rewrite backoff_trace_next, total_sleep_app, IH.
    cbn [total_sleep]. unfold delay_after.
    rewrite (Nat2Z.inj_succ n), Z.pow_succ_r by lia.
    rewrite inject_Z_mult. ring.
Qed.

(** The events of any run are the backoff trace of its attempt count. *)
Lemma events_follow_attempts (job_id edi_content : string) :
  let run := process_edi_file max_retries retry_delay create_purchase_order
                              job_id edi_content in
  events run = backoff_trace retry_delay (Z.to_nat (attempts_of run)).
Proof.
  intros run. subst run.
  destruct (Parser.parse edi_content) as [parsed|e] eqn:Hparse.
  2: { unfold process_edi_file. now rewrite Hparse. }
  destruct (Mapper.transform parsed) as [payload|e] eqn:Hmap.
  2: { unfold process_edi_file. now rewrite Hparse, Hmap. }
  destruct (_validate_payload payload) as [violations|] eqn:Hvalid.
  { unfold process_edi_file. now rewrite Hparse, Hmap, Hvalid. }
  destruct (submit_stage_record max_retries retry_delay create_purchase_order
              job_id edi_content parsed payload Hparse Hmap Hvalid)
    as [k [Hev Hend]].
  rewrite Hev. unfold attempts_of.
  destruct Hend as [[response [-> _]]|[last [-> _]]]; reflexivity.
Qed.

(** X19.  A run calls the endpoint as many times as its attempt count [n]
    says, and the time it sleeps between the calls adds up to
    [retry_delay * (2^(n-1) - 1)] seconds: nothing for a run that succeeds
    at once, [retry_delay * 3] for three attempts. *)
Theorem calls_and_total_sleep (job_id edi_content : string) :
  let run := process_edi_file max_retries retry_delay create_purchase_order
                              job_id edi_content in
  let n := Z.to_nat (attempts_of run) in
  count_calls (events run) = n
  /\ (total_sleep (events run)
      == retry_delay * (inject_Z (2 ^ Z.of_nat (n - 1)) - 1))%Q.
Proof.
  intros run n. subst n. unfold run. rewrite events_follow_attempts.
  fold run. split; [apply backoff_trace_calls|].
  destruct (Z.to_nat (attempts_of run)) as [|n].
  - cbn. ring.
  - replace (S n - 1) with n by lia. apply backoff_trace_sleep.
Qed.

(** X21.  With a maximum of zero or fewer attempts the submit stage of a
    validated payload fails without calling the endpoint: no attempt is
    recorded and the error text has no failure to quote. *)
Theorem no_attempt_allowed (job_id edi_content : string)
        (parsed : Parser.ParsedEDI850) (payload : ERPPurchaseOrder) :
  Parser.parse edi_content = Ok parsed ->
  Mapper.transform parsed = Ok payload ->
  _validate_payload payload = None ->
  (max_retries <= 0)%Z ->
  process_edi_file max_retries retry_delay create_purchase_order
                   job_id edi_content
  = {| result :=
         submit_record job_id parsed payload false
           {| post_status := failed; post_data := None;
              post_error := Some (exhausted_message max_retries "None");
              attempts := 0 |}
           None;
       events := [] |}.
Proof.
  intros Hparse Hmap Hvalid Hmax. unfold process_edi_file.
  rewrite Hparse, Hmap, Hvalid. unfold _post_to_erp_with_retry, py_range.
  replace (Z.to_nat (max_retries + 1 - 1)) with 0 by lia.
  reflexivity.
Qed.

(** X22.  The handlers of [main.py] and the orchestrator tell the same
    story.  [POST /api/parse] returns the data and the error of the
    orchestrator's parse step.  [POST /api/process] returns the documents
    of the parse and transform steps when both succeed, and otherwise
    raises a 400, never a 500, whose detail is the error of the failed step
    behind the name of its stage. *)
Theorem handlers_agree_with_orchestrator (job_id edi_content : string) :
  let run := process_edi_file max_retries retry_delay create_purchase_order
                              job_id edi_content in
  let recorded := steps (result run) in
  Main.parsed_data (Main.parse_edi edi_content) = data (parse recorded)
  /\ Main.error (Main.parse_edi edi_content) = error (parse recorded)
  /\ (Main.success (Main.parse_edi edi_content) = true
      <-> status (parse recorded) = success_status)
  /\ match Main.process_edi_to_erp edi_content with
     | Ok response =>
         parse recorded = parsed_step (Main.parsed_edi response)
         /\ transform recorded = mapped_step (Main.erp_payload response)
     | Err e =>
         Main.status_code e = 400%Z
         /\ ((status (parse recorded) = failed
              /\ exists text,
                  error (parse recorded) = Some text
                  /\ Main.detail e = ("Parsing error: " ++ text)%string)
             \/ (status (transform recorded) = failed
                 /\ exists text,
                     error (transform recorded) = Some text
                     /\ Main.detail e
                        = ("Transformation error: " ++ text)%string))
     end.
Proof.
  intros run recorded. subst recorded run.
  unfold Main.parse_edi, Main.process_edi_to_erp.
  destruct (Parser.parse edi_content) as [parsed|e] eqn:Hparse.
  2: { unfold process_edi_file. rewrite Hparse. cbn.
       repeat split; try discriminate. left. split; [reflexivity|]. eauto. }
  destruct (Mapper.transform parsed) as [payload|e] eqn:Hmap.
  2: { unfold process_edi_file. rewrite Hparse, Hmap. cbn.
       repeat split; try discriminate. right. split; [reflexivity|]. eauto. }
  destruct (_validate_payload payload) as [violations|] eqn:Hvalid.
  { unfold process_edi_file. rewrite Hparse, Hmap, Hvalid. cbn.
    repeat split. }
  destruct (submit_stage_record max_retries retry_delay create_purchase_order
              job_id edi_content parsed payload Hparse Hmap Hvalid)
    as [k [_ Hend]].
  destruct Hend as [[response [-> _]]|[last [-> _]]]; cbn; repeat split.
Qed.

End BackoffFacts.

Section MockEndpointFacts.

Import Mapper Orchestrator OrchestratorSpec OrchestratorMore.

Context {builtins : PyBuiltins}.
Variable max_retries : Z.
Variable retry_delay : Q.
Variable env : Z -> ErpApi.Environment.
Variable http_str : ErpApi.HTTPException -> string.

Lemma mock_endpoint_accepts (attempt : Z) (payload : ERPPurchaseOrder) :
  _validate_payload payload = None ->
  exists response, mock_endpoint env http_str attempt payload = Ok response.
Proof.
  unfold _validate_payload. intros Hvalid.
  destruct (ErpApi._validate_business_rules payload) as [|v vs] eqn:Hrules;
    [|discriminate].
  destruct (create_purchase_order_accepts (env attempt) payload Hrules)
    as [response [Hok _]].
  exists response. unfold mock_endpoint. now rewrite Hok.
Qed.

(** X20.  Against the mock endpoint of the repository the retry path is
    never taken: when at least one attempt is allowed, a run succeeds
    exactly when its payload passes validation, it calls the endpoint at
    most once and it never sleeps. *)
Theorem mock_endpoint_needs_no_retry (job_id edi_content : string) :
  (1 <= max_retries)%Z ->
  let run := process_edi_file max_retries retry_delay
                              (mock_endpoint env http_str)
                              job_id edi_content in
  (success (result run) = true
   <-> validate_status (validate (steps (result run))) = success_status)
  /\ (events run = [] \/ events run = [Call 1])
  /\ (attempts_of run <= 1)%Z.
Proof.
  intros Hmax run. subst run.
  destruct (Parser.parse edi_content) as [parsed|e] eqn:Hparse.
  2: { unfold process_edi_file. rewrite Hparse. cbn.
       repeat split; try discriminate; try lia. now left. }
  destruct (Mapper.transform parsed) as [payload|e] eqn:Hmap.
  2: { unfold process_edi_file. rewrite Hparse, Hmap. cbn.
       repeat split; try discriminate; try lia. now left. }
  destruct (_validate_payload payload) as [violations|] eqn:Hvalid.
  { unfold process_edi_file. rewrite Hparse, Hmap, Hvalid. cbn.
    repeat split; try discriminate; try lia. now left. }
  destruct (mock_endpoint_accepts 1 payload Hvalid) as [first Hfirst].
  destruct (submit_stage_record max_retries retry_delay
              (mock_endpoint env http_str)
              job_id edi_content parsed payload Hparse Hmap Hvalid)
    as [k [Hev Hend]].
  destruct Hend as [[response [Hres [_ [Hk Hbefore]]]]|[last [_ [_ Hall]]]].
  - assert (k = 1%Z).
    { destruct (Z.eq_dec k 1) as [|Hne]; [assumption|].
      destruct (Hbefore 1%Z) as [e He]; [lia | congruence]. }
    subst k. rewrite Hev. unfold attempts_of. rewrite Hres. cbn.
    repeat split; try lia. now right.
  - destruct (Hall 1%Z) as [e He]; [lia | congruence].
Qed.

End MockEndpointFacts.

(** ** Repeated headers *)

Section FirstOccurrenceFacts.

Import Parser ParserSpec ParserMore.

Lemma find_first_only (id other : string) (segments : list segment) :
  _find_segment (first_only id segments) other = _find_segment segments other.
Proof.
  unfold _find_segment.
  induction segments as [|seg rest IH]; [reflexivity|].
  cbn [first_only]. destruct (has_id id seg) eqn:Hid.
  - cbn [find]. destruct (has_id other seg) eqn:Hother; [reflexivity|].
    apply find_filter_keep. intros later Hlater.
    destruct (String.eqb_spec other id) as [->|Hne]; [|].
    + congruence.
    + apply negb_true_iff. apply (has_id_other other id); [|exact Hlater].
      now apply String.eqb_neq.
  - cbn [find]. destruct (has_id other seg); [reflexivity | exact IH].
Qed.

Lemma find_all_first_only (id other : string) (segments : list segment) :
  String.eqb other id = false ->
  _find_all_segments (first_only id segments) other
  = _find_all_segments segments other.
Proof.
  intros Hne. unfold _find_all_segments.
  induction segments as [|seg rest IH]; [reflexivity|].
  cbn [first_only]. destruct (has_id id seg) eqn:Hid.
  - cbn [filter]. rewrite (filter_filter_keep (has_id other)).
    + reflexivity.
    + intros later Hlater. apply negb_true_iff.
      now apply (has_id_other other id).
  - cbn [filter]. now rewrite IH.
Qed.

(** X23.  The headers, the totals segment and the trailers are read from
    their first occurrence: whatever follows under the same identifier can
    be dropped from the document without any change to the outcome of
    [parse]. *)
Theorem later_occurrences_ignored (edi_content id : string) :
  In id single_ids ->
  parse edi_content
  = map_err parse_failed
            (parse_segments (first_only id (_split_segments edi_content))).
Proof.
  intros Hid. unfold parse. f_equal.
  assert (Hrepeatable : String.eqb "REF" id = false
                        /\ String.eqb "N1" id = false
                        /\ String.eqb "PO1" id = false).
  { cbn in Hid.
    destruct Hid as [<-|[<-|[<-|[<-|[<-|[<-|[<-|[]]]]]]]]; repeat split. }
  destruct Hrepeatable as [Href [Hn1 Hpo1]].
  unfold parse_segments, _parse_isa, _parse_gs, _parse_beg, _parse_ctt,
    _parse_ref, _parse_n1, _parse_po1, _parse_control_trailers, trailer.
  rewrite !find_first_only.
  rewrite (find_all_first_only id "REF" _ Href),
          (find_all_first_only id "N1" _ Hn1),
          (find_all_first_only id "PO1" _ Hpo1).
  reflexivity.
Qed.

End FirstOccurrenceFacts.

(** ** Reported line numbers *)

Section LineNumberFacts.

Import Mapper ErpApi ErpApiSpec ErpApiMore.

Lemma line_rules_of_nth (items : list ERPLineItem) :
  forall idx position item,
    nth_error items position = Some item ->
    incl (line_rules (idx + Z.of_nat position) [item] [])
         (line_rules idx items []).
Proof.
  induction items as [|first rest IH]; intros idx position item Hnth.
  - destruct position; discriminate.
  - rewrite (line_rules_cons idx first rest). destruct position as [|position].
    + cbn in Hnth. inversion Hnth; subst first.
      replace (idx + Z.of_nat 0)%Z with idx by lia.
      apply incl_appl, incl_refl.
    + cbn in Hnth.
      replace (idx + Z.of_nat (S position))%Z
        with (idx + 1 + Z.of_nat position)%Z by lia.
      apply incl_appr, IH. exact Hnth.
Qed.

Lemma line_violation_reported (payload : ERPPurchaseOrder) (message : string) :
  In message (line_rules 1 (line_items payload) []) ->
  In message (_validate_business_rules payload).
Proof.
  intros Hin. rewrite validate_sections.
  do 3 (apply in_or_app; right). apply in_or_app. now left.
Qed.

(** X24.  The violations of a line item name its position in the payload,
    counted from 1: a quantity that is not positive, a negative unit price
    and a negative line total at position [i] are each reported under
    "Line i+1". *)
Theorem line_violations_name_the_position (payload : ERPPurchaseOrder)
        (position : nat) (item : ERPLineItem) :
  nth_error (line_items payload) position = Some item ->
  ((quantity item <=? 0)%float = true ->
   In (line_label position ++ ": Quantity must be greater than zero")%string
      (_validate_business_rules payload))
  /\ ((unit_price item <? 0)%float = true ->
      In (line_label position ++ ": Unit price cannot be negative")%string
         (_validate_business_rules payload))
  /\ ((total_price item <? 0)%float = true ->
      In (line_label position ++ ": Total price cannot be negative")%string
         (_validate_business_rules payload)).
Proof.
  intros Hnth.
  pose proof (line_rules_of_nth (line_items payload) 1%Z position item Hnth)
    as Hincl.
  cbn [line_rules] in Hincl. rewrite !append_if_app in Hincl.
  cbn [app] in Hincl. unfold line_label.
  replace (Z.of_nat position + 1)%Z with (1 + Z.of_nat position)%Z by lia.
  repeat split; intros Hbad; apply line_violation_reported, Hincl;
    rewrite Hbad.
  - apply in_or_app. left. apply in_or_app. left. now left.
  - apply in_or_app. left. apply in_or_app. right. now left.
  - apply in_or_app. right. now left.
Qed.

End LineNumberFacts.

(** ** Documents that cannot be submitted *)

Section RejectedDocuments.

Import Mapper MapperSpec MapperMore Orchestrator OrchestratorSpec OrchestratorMore.

Context {builtins : PyBuiltins}.
Variable max_retries : Z.
Variable retry_delay : Q.
Variable create_purchase_order :
  Z -> ERPPurchaseOrder -> Result string ErpApi.ERPResponse.

(** What a mapped payload owes to the parsed document. *)
Lemma mapped_shape (document : Parser.ParsedEDI850) (payload : ERPPurchaseOrder) :
  Mapper.transform document = Ok payload ->
  total_lines payload = Z.of_nat (List.length (Parser.po1_line_items document))
  /\ _extract_vendor (Parser.n1_loops document) = Ok (vendor payload)
  /\ ship_to payload = resolved_ship_to (Parser.n1_loops document).
Proof.
  unfold Mapper.transform, transform_body, bind.
  destruct (_extract_vendor _) as [v|]; [|discriminate].
  destruct (_transform_line_items _) as [items|] eqn:Hitems; [|discriminate].
  cbn. intros Hmap. inversion Hmap; subst payload. cbn.
  apply line_items_loop_length in Hitems. cbn in Hitems.
  unfold Py.len. rewrite Hitems.
  split; [reflexivity|]. split; [reflexivity|]. apply extract_ship_to_first.
Qed.

(** A payload with a violation stops the run before the submit stage. *)
Lemma violation_stops_the_run (job_id edi_content : string)
      (parsed : Parser.ParsedEDI850) (payload : ERPPurchaseOrder)
      (message : string) :
  Parser.parse edi_content = Ok parsed ->
  Mapper.transform parsed = Ok payload ->
  In message (ErpApi._validate_business_rules payload) ->
  let run := process_edi_file max_retries retry_delay create_purchase_order
                              job_id edi_content in
  events run = []
  /\ success (result run) = false
  /\ post_to_erp (steps (result run)) = untouched_post.
Proof.
  intros Hparse Hmap Hin. unfold process_edi_file.
  rewrite Hparse, Hmap. unfold _validate_payload.
  destruct (ErpApi._validate_business_rules payload) as [|v vs]; [destruct Hin|].
  repeat split.
Qed.

Lemma failed_mapping_stops_the_run (job_id edi_content : string)
      (parsed : Parser.ParsedEDI850) (e : TransformationError) :
  Parser.parse edi_content = Ok parsed ->
  Mapper.transform parsed = Err e ->
  let run := process_edi_file max_retries retry_delay create_purchase_order
                              job_id edi_content in
  events run = []
  /\ success (result run) = false
  /\ post_to_erp (steps (result run)) = untouched_post.
Proof.
  intros Hparse Hmap. unfold process_edi_file. rewrite Hparse, Hmap.
  repeat split.
Qed.

(** X25.  A document without any accepted line item is never submitted:
    whether the mapper fails on it or maps it to an order of zero lines,
    which rule 2 rejects, the run ends unsuccessful before the submit
    stage, with no call of the endpoint. *)
Theorem order_without_lines_not_submitted (job_id edi_content : string)
        (parsed : Parser.ParsedEDI850) :
  Parser.parse edi_content = Ok parsed ->
  Parser.po1_line_items parsed = [] ->
  let run := process_edi_file max_retries retry_delay create_purchase_order
                              job_id edi_content in
  events run = []
  /\ success (result run) = false
  /\ post_to_erp (steps (result run)) = untouched_post.
Proof.
  intros Hparse Hnone.
  destruct (Mapper.transform parsed) as [payload|e] eqn:Hmap;
    [|now apply (failed_mapping_stops_the_run _ _ parsed e)].
  apply (violation_stops_the_run _ _ parsed payload
           "Purchase order must contain at least one line item" Hparse Hmap).
  destruct (mapped_shape parsed payload Hmap) as [Htotal _].
  rewrite Hnone in Htotal. cbn in Htotal.
  rewrite validate_sections, Htotal. cbn [Z.ltb Z.compare].
  apply in_or_app. right. apply in_or_app. left. now left.
Qed.

(** X26.  The sentinels of the mapper exist only to be rejected: a document
    without "VN" loop, or without "ST" loop, is never submitted.  When it
    maps, its vendor or ship-to name is the sentinel that rule 5 or rule 6
    refuses, and the run ends unsuccessful with no call of the endpoint. *)
Theorem order_without_party_not_submitted (job_id edi_content : string)
        (parsed : Parser.ParsedEDI850) :
  Parser.parse edi_content = Ok parsed ->
  find is_vendor (Parser.n1_loops parsed) = None
  \/ find is_ship_to (Parser.n1_loops parsed) = None ->
  let run := process_edi_file max_retries retry_delay create_purchase_order
                              job_id edi_content in
  events run = []
  /\ success (result run) = false
  /\ post_to_erp (steps (result run)) = untouched_post.
Proof.
  intros Hparse Hparty.
  destruct (Mapper.transform parsed) as [payload|e] eqn:Hmap;
    [|now apply (failed_mapping_stops_the_run _ _ parsed e)].
  destruct (mapped_shape parsed payload Hmap) as [_ [Hvendor Hship]].
  destruct Hparty as [Hnone|Hnone].
  - apply (violation_stops_the_run _ _ parsed payload
             "Valid vendor information is required" Hparse Hmap).
    rewrite extract_vendor_first, Hnone in Hvendor.
    inversion Hvendor as [Hsentinel].
    rewrite validate_sections, <- Hsentinel. cbn [vendor_name sentinel_vendor].
    do 4 (apply in_or_app; right). apply in_or_app. left. now left.
  - apply (violation_stops_the_run _ _ parsed payload
             "Valid ship-to location is required" Hparse Hmap).
    unfold resolved_ship_to in Hship. rewrite Hnone in Hship.
    rewrite validate_sections, Hship. cbn [location_name].
    do 5 (apply in_or_app; right). apply in_or_app. left. now left.
Qed.

End RejectedDocuments.

(** ** The further properties on the sample documents *)

(** The sample order keeps no white space around any value. *)
Lemma captured_values_trimmed_witness :
  Forall ParserMore.trimmed
         (ParserMore.captured (Reference.parsed Reference.sample_850)).
Proof.
  apply (captured_values_trimmed Reference.sample_850).
  vm_compute. reflexivity.
Defined.

(** The date of the sample order. *)
Lemma format_date_shape_witness :
  String.length (Mapper._format_date "20240115") = 10
  /\ String.get 4 (Mapper._format_date "20240115") = Some "-"%char
  /\ String.get 7 (Mapper._format_date "20240115") = Some "-"%char
  /\ MapperMore.without_dashes (Mapper._format_date "20240115") = "20240115".
Proof.
  destruct (format_date_shape "20240115") as [_ [Height _]].
  apply Height. reflexivity.
Defined.

(** A code outside the table. *)
Lemma map_po_type_stable_witness : Mapper._map_po_type "KN" = "KN".
Proof.
  destruct (map_po_type_stable "KN") as [_ Hout].
  apply Hout. cbn. intuition discriminate.
Defined.

(** The ship-to of the sample order. *)
Lemma ship_to_resolution_witness :
  Mapper.ship_to (Reference.mapped Reference.sample_850)
  = MapperMore.resolved_ship_to
      (Parser.n1_loops (Reference.parsed Reference.sample_850)).
Proof.
  apply (ship_to_resolution (builtins := Reference.builtins)).
  vm_compute. reflexivity.
Defined.

(** The two lines of the sample order. *)
Lemma line_items_correspond_witness :
  Forall2 (MapperMore.line_corresponds (builtins := Reference.builtins))
          (Parser.po1_line_items (Reference.parsed Reference.sample_850))
          (Mapper.line_items (Reference.mapped Reference.sample_850)).
Proof.
  apply (line_items_correspond (builtins := Reference.builtins)).
  vm_compute. reflexivity.
Defined.

(** Of the references DP 100 and DP 200 the second is kept. *)
Lemma reference_numbers_last_wins_witness :
  NoDup (map fst [("department", "200")])
  /\ forall key,
      MapperMore.lookup [("department", "200")] key
      = MapperMore.last_reference
          (Parser.ref_segments (Reference.parsed Examples.two_departments_850))
          key.
Proof.
  destruct (reference_numbers_last_wins
              (Parser.ref_segments
                 (Reference.parsed Examples.two_departments_850)))
    as [_ Hsome].
  apply Hsome. vm_compute. reflexivity.
Defined.

(** The sample payload: the validator's answer without the count check. *)
Lemma count_check_is_idle_after_mapping_witness :
  ErpApi._validate_business_rules (Reference.mapped Reference.sample_850)
  = ErpApiMore.violations_without_count_check
      (Reference.mapped Reference.sample_850)
  /\ (Parser.po1_line_items (Reference.parsed Reference.sample_850) = [] ->
      In "Purchase order must contain at least one line item"
         (ErpApi._validate_business_rules
            (Reference.mapped Reference.sample_850))).
Proof.
  apply (count_check_is_idle_after_mapping (builtins := Reference.builtins)
           (Reference.parsed Reference.sample_850)).
  vm_compute. reflexivity.
Defined.

(** A simulated timeout on the sample payload. *)
Lemma simulated_error_always_raises_witness :
  exists e,
    ErpApi.create_purchase_order (Reference.environment 1)
      (Reference.mapped Reference.sample_850) (Some "timeout") = Err e
    /\ In (ErpApi.status_code e) ErpApiMore.simulated_status_codes.
Proof.
  destruct (simulated_error_always_raises (Reference.environment 1)
              (Reference.mapped Reference.sample_850) "timeout")
    as [[e [Hraised [Hcode _]]] _].
  - discriminate.
  - exists e. split; assumption.
Defined.

(** The order whose vendor loop has three elements stops at the transform
    step. *)
Lemma transform_failure_stops_the_run_witness :
  Orchestrator.events
    (Orchestrator.process_edi_file (builtins := Reference.builtins)
       3 2%Q Reference.endpoint "job-5" Reference.short_vendor_850)
  = [].
Proof.
  rewrite (transform_failure_stops_the_run (builtins := Reference.builtins)
             3 2%Q Reference.endpoint "job-5" Reference.short_vendor_850
             (Reference.parsed Reference.short_vendor_850)
             (Examples.mapping_error Reference.short_vendor_850)).
  - reflexivity.
  - vm_compute. reflexivity.
  - vm_compute. reflexivity.
Defined.

(** The order without line items stops at the validate step. *)
Lemma validation_rejection_stops_the_run_witness :
  Orchestrator.events
    (Orchestrator.process_edi_file (builtins := Reference.builtins)
       3 2%Q Reference.endpoint "job-6" Reference.no_lines_850)
  = [].
Proof.
  destruct (validation_rejection_stops_the_run (builtins := Reference.builtins)
              3 2%Q Reference.endpoint "job-6" Reference.no_lines_850
              (Reference.parsed Reference.no_lines_850)
              (Reference.mapped Reference.no_lines_850)
              [ErpApiSpec.total_amount_violation;
               "Purchase order must contain at least one line item"])
    as [Hrun _].
  - vm_compute. reflexivity.
  - vm_compute. reflexivity.
  - vm_compute. reflexivity.
  - rewrite Hrun. reflexivity.
Defined.

(** The sample order against the mock endpoint, three attempts allowed. *)
Lemma mock_endpoint_needs_no_retry_witness :
  (OrchestratorSpec.attempts_of
     (Orchestrator.process_edi_file (builtins := Reference.builtins)
        3 2%Q (OrchestratorMore.mock_endpoint Reference.environment
                                              Reference.http_str)
        "job-7" Reference.sample_850)
   <= 1)%Z.
Proof.
  destruct (mock_endpoint_needs_no_retry (builtins := Reference.builtins)
              3 2%Q Reference.environment Reference.http_str
              "job-7" Reference.sample_850) as [_ [_ Hattempts]].
  - lia.
  - exact Hattempts.
Defined.

(** The sample order with no attempt allowed. *)
Lemma no_attempt_allowed_witness :
  Orchestrator.events
    (Orchestrator.process_edi_file (builtins := Reference.builtins)
       0 2%Q Reference.endpoint "job-8" Reference.sample_850)
  = [].
Proof.
  rewrite (no_attempt_allowed (builtins := Reference.builtins)
             0 2%Q Reference.endpoint "job-8" Reference.sample_850
             (Reference.parsed Reference.sample_850)
             (Reference.mapped Reference.sample_850)).
  - reflexivity.
  - vm_compute. reflexivity.
  - vm_compute. reflexivity.
  - vm_compute. reflexivity.
  - lia.
Defined.

(** Later BEG segments of the sample order, if any, do not count. *)
Lemma later_occurrences_ignored_witness :
  Parser.parse Reference.sample_850
  = map_err Parser.parse_failed
      (Parser.parse_segments
         (ParserMore.first_only "BEG"
            (Parser._split_segments Reference.sample_850))).
Proof.
  apply (later_occurrences_ignored Reference.sample_850 "BEG").
  cbn. tauto.
Defined.

(** The second line of the order with a quantity of zero. *)
Lemma line_violations_name_the_position_witness :
  In "Line 2: Quantity must be greater than zero"
     (ErpApi._validate_business_rules
        (Reference.mapped Examples.zero_quantity_850)).
Proof.
  destruct (line_violations_name_the_position
              (Reference.mapped Examples.zero_quantity_850) 1
              (Examples.mapped_line Examples.zero_quantity_850 1))
    as [Hquantity _].
  - vm_compute. reflexivity.
  - apply Hquantity. vm_compute. reflexivity.
Defined.

(** The order without line items is not submitted. *)
Lemma order_without_lines_not_submitted_witness :
  Orchestrator.events
    (Orchestrator.process_edi_file (builtins := Reference.builtins)
       3 2%Q Reference.endpoint "job-9" Reference.no_lines_850)
  = [].
Proof.
  destruct (order_without_lines_not_submitted (builtins := Reference.builtins)
              3 2%Q Reference.endpoint "job-9" Reference.no_lines_850
              (Reference.parsed Reference.no_lines_850)) as [Hevents _].
  - vm_compute. reflexivity.
  - vm_compute. reflexivity.
  - exact Hevents.
Defined.

(** The order without vendor loop is not submitted. *)
Lemma order_without_party_not_submitted_witness :
  Orchestrator.events
    (Orchestrator.process_edi_file (builtins := Reference.builtins)
       3 2%Q Reference.endpoint "job-10" Reference.no_vendor_850)
  = [].
Proof.
  destruct (order_without_party_not_submitted (builtins := Reference.builtins)
              3 2%Q Reference.endpoint "job-10" Reference.no_vendor_850
              (Reference.parsed Reference.no_vendor_850)) as [Hevents _].
  - vm_compute. reflexivity.
  - left. vm_compute. reflexivity.
  - exact Hevents.
Defined.
